(** * The files router of open-webui, embedded in Rocq

    Source: [backend/open_webui/apps/webui/routers/files.py].

    The router is glue code: every handler calls the Metadata Registry
    ([Files]), the Blob Storage ([Storage]) and the Content Processor
    ([process_file]), and turns what they return or raise into an HTTP
    answer.  The embedding keeps that shape.  The collaborators are an
    interface over an abstract world; a handler is a computation in a state
    and exception monad whose state is the world together with the list of
    collaborator calls made so far; Python's [try]/[except] is a combinator
    of that monad. *)

From Stdlib Require Import Ascii String.
From stdpp Require Import base strings pretty gmap list.

Set Warnings "-register-all".

Open Scope string_scope.
Open Scope list_scope.
Open Scope Z_scope.

(** ** Python values and exceptions *)

(** The values that occur in the dictionaries of a record ([meta], [data])
    and in JSON bodies. *)
Inductive value :=
| VNone
| VStr (s : string)
| VInt (n : Z)
| VDict (d : list (string * value)).

(** Python [bytes]: a string of 8-bit characters.  A Python [str] is held
    as the string of its UTF-8 bytes. *)
Abbreviation bytes := string (only parsing).

(** Whether [s.encode("latin-1")] succeeds: every code point of [s] is at
    most U+00FF.  In UTF-8 these are the texts without a byte from 0xC4 up,
    the lead bytes of the code points from U+0100 up. *)
Fixpoint latin1_encodable (s : string) : bool :=
  match s with
  | EmptyString => true
  | String a s' => (nat_of_ascii a <? 196)%nat && latin1_encodable s'
  end.

(** [len(contents)] *)
Definition len (s : string) : Z := Z.of_nat (String.length s).

(** The exceptions the handlers see.  fastapi's [HTTPException] derives from
    [Exception], so an [except Exception] clause catches it like any other;
    [Exception msg] stands for every exception without a [detail] attribute,
    with [str(e) = msg]. *)
Inductive exn :=
| HTTPException (status_code : Z) (detail : string)
| Exception (msg : string).

(** [UnicodeEncodeError] raised by [s.encode("latin-1")]. *)
Definition UnicodeEncodeError : exn :=
  Exception "'latin-1' codec can't encode characters".

(** [AttributeError] raised by [None.attr]. *)
Definition AttributeError (attr : string) : exn :=
  Exception ("'NoneType' object has no attribute '" +:+ attr +:+ "'").

Definition result (A : Type) : Type := exn + A.

Module status.
Definition HTTP_200_OK : Z := 200.
Definition HTTP_400_BAD_REQUEST : Z := 400.
Definition HTTP_403_FORBIDDEN : Z := 403.
Definition HTTP_404_NOT_FOUND : Z := 404.
Definition HTTP_500_INTERNAL_SERVER_ERROR : Z := 500.
End status.

(** The status code the client receives: 200 for a returned value, the code
    of a raised [HTTPException], and 500 for any other exception that leaves
    the handler. *)
Definition http_status {A} (r : result A) : Z :=
  match r with
  | inr _ => status.HTTP_200_OK
  | inl (HTTPException code _) => code
  | inl (Exception _) => status.HTTP_500_INTERNAL_SERVER_ERROR
  end.

(** ** Request and record types *)

Module User.
Record t := { id : string; role : string }.
End User.

Module UploadFile.
Record t := { filename : string; content_type : value; file : bytes }.
End UploadFile.

(** The dictionary [file_form_data] given to [FileForm]. *)
Module FileForm.
Record t := {
  id : string;
  filename : string;
  path : string;
  meta : gmap string value;
}.
End FileForm.

(** A record of the registry, with the attributes the router reads. *)
Module FileModel.
Record t := {
  id : string;
  user_id : string;
  filename : string;
  path : option string;
  meta : gmap string value;
  data : gmap string value;
  content : gmap string value;
}.
End FileModel.

Module ProcessFileForm.
Record t := { file_id : string; content : option string }.
End ProcessFileForm.

Definition dict_value (d : gmap string value) : value := VDict (map_to_list d).

Definition opt_str (o : option string) : value :=
  match o with Some s => VStr s | None => VNone end.

(** [file_item.model_dump()]: the record as a dictionary.  It has exactly
    the keys of the record's attributes. *)
Definition model_dump (f : FileModel.t) : gmap string value :=
  <["id" := VStr (FileModel.id f)]>
  (<["user_id" := VStr (FileModel.user_id f)]>
  (<["filename" := VStr (FileModel.filename f)]>
  (<["path" := opt_str (FileModel.path f)]>
  (<["meta" := dict_value (FileModel.meta f)]>
  (<["data" := dict_value (FileModel.data f)]>
  (<["content" := dict_value (FileModel.content f)]> ∅)))))).

(** ** [os.path.basename] *)

(** [p.rfind(c)]: the index of the last [c] in [p], or -1.  [i] is the index
    of the head of [p] and [last] the answer so far. *)
Fixpoint rfind_from (c : ascii) (p : string) (i last : Z) : Z :=
  match p with
  | EmptyString => last
  | String a p' => rfind_from c p' (i + 1) (if Ascii.eqb a c then i else last)
  end.

Definition rfind (c : ascii) (p : string) : Z := rfind_from c p 0 (-1).

(** [p[i:]] for [0 <= i] *)
Fixpoint slice_from (i : nat) (p : string) : string :=
  match i, p with
  | O, _ => p
  | S i', EmptyString => EmptyString
  | S i', String _ p' => slice_from i' p'
  end.

(** [posixpath.basename]: [i = p.rfind('/') + 1; return p[i:]] *)
Definition basename (p : string) : string :=
  let i := rfind "/" p + 1 in
  slice_from (Z.to_nat i) p.

(** [c in p] *)
Fixpoint contains (c : ascii) (p : string) : bool :=
  match p with
  | EmptyString => false
  | String a p' => Ascii.eqb a c || contains c p'
  end.

(** ** Exceptions as strings *)

(** [str(e)]: starlette prints an [HTTPException] as
    [f"{status_code}: {detail}"]. *)
Definition str_exn (e : exn) : string :=
  match e with
  | HTTPException code detail => pretty code +:+ ": " +:+ detail
  | Exception msg => msg
  end.

(** The constants of [open_webui.constants] and the one piece of Python's
    [str] the router needs and the embedding leaves open. *)
Class Constants := {
  (** [ERROR_MESSAGES.DEFAULT(err)] *)
  DEFAULT : string → string;
  (** [ERROR_MESSAGES.NOT_FOUND] *)
  NOT_FOUND : string;
  (** [str(d)] for a dictionary [d] *)
  str_dict : list (string * value) → string;
}.

(** [f"{v}"] *)
Definition format `{Constants} (v : value) : string :=
  match v with
  | VNone => "None"
  | VStr s => s
  | VInt n => pretty n
  | VDict d => str_dict d
  end.

(** ** The collaborators *)

(** The calls a handler makes to its collaborators, with their arguments. *)
Inductive call :=
| Call_Storage_upload_file (contents : bytes) (filename : string)
| Call_Storage_get_file (path : option string)
| Call_Storage_delete_file (filename : string)
| Call_Storage_delete_all_files
| Call_Files_insert_new_file (user_id : string) (form : FileForm.t)
| Call_Files_get_file_by_id (id : string)
| Call_Files_get_files
| Call_Files_get_files_by_user_id (user_id : string)
| Call_Files_delete_file_by_id (id : string)
| Call_Files_delete_all_files
| Call_process_file (form : ProcessFileForm.t).

(** [Storage], [Files] and [process_file] over a world [W]: each operation
    returns or raises, and leaves a new world either way.
    [path_is_file] is [Path(p).is_file()]. *)
Class Collaborators (W : Type) := {
  storage_upload_file : bytes → string → W → result (bytes * string) * W;
  storage_get_file : option string → W → result string * W;
  storage_delete_file : string → W → result unit * W;
  storage_delete_all_files : W → result unit * W;
  files_insert_new_file : string → FileForm.t → W → result (option FileModel.t) * W;
  files_get_file_by_id : string → W → result (option FileModel.t) * W;
  files_get_files : W → result (list FileModel.t) * W;
  files_get_files_by_user_id : string → W → result (list FileModel.t) * W;
  files_delete_file_by_id : string → W → result bool * W;
  files_delete_all_files : W → result bool * W;
  run_process_file : ProcessFileForm.t → W → result unit * W;
  path_is_file : string → W → bool;
}.

(** ** The handler monad *)

Record state (W : Type) := State { world : W; calls : list call }.
Arguments State {W} _ _.
Arguments world {W} _.
Arguments calls {W} _.

Definition M (W A : Type) : Type := state W → result A * state W.

#[global] Instance M_ret {W} : MRet (M W) := λ A a st, (inr a, st).

#[global] Instance M_bind {W} : MBind (M W) := λ A B k m st,
  match m st with
  | (inr a, st') => k a st'
  | (inl e, st') => (inl e, st')
  end.

(** [raise e] *)
Definition raise {W A} (e : exn) : M W A := λ st, (inl e, st).

(** Runs [m] and hands back what it returned or raised. *)
Definition attempt {W A} (m : M W A) : M W (result A) := λ st,
  let '(r, st') := m st in (inr r, st').

(** [try: m except Exception as e: handler e] *)
Definition try_except {W A} (m : M W A) (handler : exn → M W A) : M W A :=
  r ← attempt m;
  match r with
  | inr a => mret a
  | inl e => handler e
  end.

(** Records the call [c] and lets the collaborator act on the world. *)
Definition invoke {W A} (c : call) (op : W → result A * W) : M W A := λ st,
  let '(r, w) := op (world st) in
  (r, State w (calls st ++ [c])).

(** [o.attr] for an [Optional] record [o]: [AttributeError] on [None]. *)
Definition getattr {W} (attr : string) (o : option FileModel.t) : M W FileModel.t :=
  match o with
  | Some f => mret f
  | None => raise (AttributeError attr)
  end.

(** ** Responses *)

(** A [StreamingResponse] holds the object its generator will encode: the
    body is produced when the response is streamed, after the handler has
    returned. *)
Inductive response :=
| Model (d : gmap string value)
| Models (l : list FileModel.t)
| JSON (d : gmap string value)
| FileResponse (path : string) (headers : gmap string string)
| StreamingResponse (file_content : value) (media_type : string)
    (headers : gmap string string).

(** The generator of the inline fallback, [yield file_content.encode("utf-8")],
    run when the response is streamed. *)
Definition generator (file_content : value) : result bytes :=
  match file_content with
  | VStr text => inr text
  | _ => inl (Exception "object has no attribute 'encode'")
  end.

(** starlette's [Response.init_headers], which the constructors of
    [FileResponse] and [StreamingResponse] run on the handler's headers:
    every name and value is encoded as latin-1. *)
Definition init_headers (headers : gmap string string) : result unit :=
  if forallb (λ kv, latin1_encodable kv.1 && latin1_encodable kv.2)
       (map_to_list headers)
  then inr ()
  else inl UnicodeEncodeError.

Definition dquote : string := String "034"%char EmptyString.

(** [d.get(key, default)] *)
Definition get (d : gmap string value) (key : string) (default : value) : value :=
  match d !! key with
  | Some v => v
  | None => default
  end.

(** [if path:] for an [Optional[str]] *)
Definition truthy_path (path : option string) : bool :=
  match path with
  | Some (String _ _) => true
  | _ => false
  end.

(** ** The handlers *)

Section Router.
Context {W : Type} `{Collaborators W} `{Constants}.

Definition Storage_upload_file (contents : bytes) (filename : string)
  : M W (bytes * string) :=
  invoke (Call_Storage_upload_file contents filename)
         (storage_upload_file contents filename).
Definition Storage_get_file (path : option string) : M W string :=
  invoke (Call_Storage_get_file path) (storage_get_file path).
Definition Storage_delete_file (filename : string) : M W unit :=
  invoke (Call_Storage_delete_file filename) (storage_delete_file filename).
Definition Storage_delete_all_files : M W unit :=
  invoke Call_Storage_delete_all_files storage_delete_all_files.
Definition Files_insert_new_file (user_id : string) (form : FileForm.t)
  : M W (option FileModel.t) :=
  invoke (Call_Files_insert_new_file user_id form)
         (files_insert_new_file user_id form).
Definition Files_get_file_by_id (id : string) : M W (option FileModel.t) :=
  invoke (Call_Files_get_file_by_id id) (files_get_file_by_id id).
Definition Files_get_files : M W (list FileModel.t) :=
  invoke Call_Files_get_files files_get_files.
Definition Files_get_files_by_user_id (user_id : string)
  : M W (list FileModel.t) :=
  invoke (Call_Files_get_files_by_user_id user_id)
         (files_get_files_by_user_id user_id).
Definition Files_delete_file_by_id (id : string) : M W bool :=
  invoke (Call_Files_delete_file_by_id id) (files_delete_file_by_id id).
Definition Files_delete_all_files : M W bool :=
  invoke Call_Files_delete_all_files files_delete_all_files.
Definition process_file (form : ProcessFileForm.t) : M W unit :=
  invoke (Call_process_file form) (run_process_file form).

(** [Path(file_path).is_file()] *)
Definition is_file (file_path : string) : M W bool :=
  λ st, (inr (path_is_file file_path (world st)), st).

(** *** Upload File *)

(** [str(process_error.detail) if hasattr(process_error, "detail")
     else str(process_error)] *)
Definition error_message (process_error : exn) : string :=
  match process_error with
  | HTTPException _ detail => detail
  | Exception _ => str_exn process_error
  end.

(** The [except Exception as process_error] clause of [upload_file].
    [file_item] is the variable as the [try] body left it: the inserted
    record, or what [Files.get_file_by_id] returned when the body got
    that far. *)
Definition upload_file_process_error (process_error : exn)
    (file_item : option FileModel.t) : M W (gmap string value) :=
  (* log.error(f"... File ID: {file_item.id} ...") *)
  file_item ← getattr "id" file_item;
  let error_message := error_message process_error in
  mret (<["error" := VStr error_message]> (model_dump file_item)).

(** [bool(file_item)] for a model object, which has neither [__bool__]
    nor [__len__]. *)
Definition truthy_model (file_item : gmap string value) : bool := true.

(** [upload_file(file, user)].  [uuid4] is the string that
    [str(uuid.uuid4())] draws. *)
Definition upload_file (file : UploadFile.t) (user : User.t)
    (uuid4 : string) : M W response :=
  try_except
    (let unsanitized_filename := UploadFile.filename file in
     let filename := basename unsanitized_filename in
     (* replace filename with uuid *)
     let id := uuid4 in
     let name := filename in
     let filename := id +:+ "_" +:+ filename in
     (* Upload file to storage *)
     '(contents, file_path) ←
       try_except
         (Storage_upload_file (UploadFile.file file) filename)
         (λ storage_error,
            raise (HTTPException status.HTTP_500_INTERNAL_SERVER_ERROR
                     (DEFAULT "Storage upload failed")));
     (* Create file record *)
     let file_form_data :=
       {| FileForm.id := id;
          FileForm.filename := name;
          FileForm.path := file_path;
          FileForm.meta :=
            {[ "name" := VStr name;
               "content_type" := UploadFile.content_type file;
               "size" := VInt (len contents) ]} |} in
     file_item ←
       try_except
         (file_item ← Files_insert_new_file (User.id user) file_form_data;
          (* log.info(f"... {file_item.id}") *)
          getattr "id" file_item)
         (λ db_error,
            raise (HTTPException status.HTTP_500_INTERNAL_SERVER_ERROR
                     (DEFAULT "Database record creation failed")));
     (* Process file *)
     file_item ←
       (r ← attempt
              (process_file {| ProcessFileForm.file_id := id;
                               ProcessFileForm.content := None |};;
               Files_get_file_by_id id);
        match r with
        | inr (Some fetched) => mret (model_dump fetched)
        | inr None =>
            (* file_item is None: file_item.model_dump() raises inside
               the try *)
            upload_file_process_error (AttributeError "model_dump") None
        | inl process_error =>
            upload_file_process_error process_error (Some file_item)
        end);
     if truthy_model file_item then mret (Model file_item)
     else raise (HTTPException status.HTTP_400_BAD_REQUEST
                   (DEFAULT "Error uploading file")))
    (λ e, raise (HTTPException status.HTTP_400_BAD_REQUEST
                   (DEFAULT (str_exn e)))).

(** *** List Files *)

Definition list_files (user : User.t) : M W response :=
  files ←
    (if bool_decide (User.role user = "admin") then Files_get_files
     else Files_get_files_by_user_id (User.id user));
  mret (Models files).

(** *** Delete All Files *)

(** The caller has passed [get_admin_user]. *)
Definition delete_all_files (user : User.t) : M W response :=
  result ← Files_delete_all_files;
  if (result : bool) then
    try_except Storage_delete_all_files
      (λ e, raise (HTTPException status.HTTP_400_BAD_REQUEST
                     (DEFAULT "Error deleting files")));;
    mret (JSON {[ "message" := VStr "All files deleted successfully" ]})
  else
    raise (HTTPException status.HTTP_400_BAD_REQUEST
             (DEFAULT "Error deleting files")).

(** The condition every identifier-addressed handler tests:
    [file and (file.user_id == user.id or user.role == "admin")]. *)
Definition found_and_allowed (file : option FileModel.t) (user : User.t)
  : option FileModel.t :=
  match file with
  | Some f =>
      if bool_decide (FileModel.user_id f = User.id user)
         || bool_decide (User.role user = "admin")
      then Some f else None
  | None => None
  end.

Definition not_found {A} : M W A :=
  raise (HTTPException status.HTTP_404_NOT_FOUND NOT_FOUND).

(** *** Get File By Id *)

Definition get_file_by_id (id : string) (user : User.t) : M W response :=
  file ← Files_get_file_by_id id;
  match found_and_allowed file user with
  | Some file => mret (Model (model_dump file))
  | None => not_found
  end.

(** *** Get File Data Content By Id *)

Definition get_file_data_content_by_id (id : string) (user : User.t)
  : M W response :=
  file ← Files_get_file_by_id id;
  match found_and_allowed file user with
  | Some file =>
      mret (JSON {[ "content" := get (FileModel.data file) "content" (VStr "") ]})
  | None => not_found
  end.

(** *** Update File Data Content By Id *)

(** [form_data] is [ContentForm.content]. *)
Definition update_file_data_content_by_id (id : string) (form_data : string)
    (user : User.t) : M W response :=
  file ← Files_get_file_by_id id;
  match found_and_allowed file user with
  | Some file0 =>
      r ← attempt
            (process_file {| ProcessFileForm.file_id := id;
                             ProcessFileForm.content := Some form_data |};;
             Files_get_file_by_id id);
      (* an exception is logged; [file] keeps its value unless the
         assignment was reached *)
      file ← getattr "data" (match r with
                             | inr fetched => fetched
                             | inl e => Some file0
                             end);
      mret (JSON {[ "content" := get (FileModel.data file) "content" (VStr "") ]})
  | None => not_found
  end.

(** *** Get File Content By Id *)

(** [FileResponse(file_path, headers=headers)] *)
Definition new_FileResponse (file_path : string) (headers : gmap string string)
  : M W response :=
  match init_headers headers with
  | inr _ => mret (FileResponse file_path headers)
  | inl e => raise e
  end.

(** [StreamingResponse(generator(), media_type=..., headers=headers)] *)
Definition new_StreamingResponse (file_content : value) (media_type : string)
    (headers : gmap string string) : M W response :=
  match init_headers headers with
  | inr _ => mret (StreamingResponse file_content media_type headers)
  | inl e => raise e
  end.

Definition content_disposition (file : FileModel.t) : string :=
  "attachment; filename=" +:+ dquote
    +:+ format (get (FileModel.meta file) "name" (VStr (FileModel.filename file)))
    +:+ dquote.

Definition get_file_content_by_id (id : string) (user : User.t)
  : M W response :=
  file ← Files_get_file_by_id id;
  match found_and_allowed file user with
  | Some file =>
      try_except
        (file_path ← Storage_get_file (FileModel.path file);
         exists_ ← is_file file_path;
         if (exists_ : bool) then
           let headers := {[ "Content-Disposition" := content_disposition file ]} in
           new_FileResponse file_path headers
         else not_found)
        (λ e, raise (HTTPException status.HTTP_400_BAD_REQUEST
                       (DEFAULT "Error getting file content")))
  | None => not_found
  end.

Definition get_html_file_content_by_id (id : string) (user : User.t)
  : M W response :=
  file ← Files_get_file_by_id id;
  match found_and_allowed file user with
  | Some file =>
      try_except
        (file_path ← Storage_get_file (FileModel.path file);
         exists_ ← is_file file_path;
         if (exists_ : bool) then mret (FileResponse file_path ∅)
         else not_found)
        (λ e, raise (HTTPException status.HTTP_400_BAD_REQUEST
                       (DEFAULT "Error getting file content")))
  | None => not_found
  end.

(** The handler of [GET /{id}/content/{file_name}]; the source names it
    [get_file_content_by_id] a second time. *)
Definition get_file_content_by_id_file_name (id : string) (user : User.t)
  : M W response :=
  file ← Files_get_file_by_id id;
  match found_and_allowed file user with
  | Some file =>
      let file_path := FileModel.path file in
      if truthy_path file_path then
        file_path ← Storage_get_file file_path;
        exists_ ← is_file file_path;
        if (exists_ : bool) then
          let headers := {[ "Content-Disposition" := content_disposition file ]} in
          new_FileResponse file_path headers
        else not_found
      else
        (* return the content as .txt if possible *)
        let file_content := get (FileModel.content file) "content" (VStr "") in
        let file_name := FileModel.filename file in
        new_StreamingResponse file_content "text/plain"
          {[ "Content-Disposition" := "attachment; filename=" +:+ file_name ]}
  | None => not_found
  end.

(** *** Delete File By Id *)

Definition delete_file_by_id (id : string) (user : User.t) : M W response :=
  file ← Files_get_file_by_id id;
  match found_and_allowed file user with
  | Some file =>
      result ← Files_delete_file_by_id id;
      if (result : bool) then
        try_except (Storage_delete_file (FileModel.filename file))
          (λ e, raise (HTTPException status.HTTP_400_BAD_REQUEST
                         (DEFAULT "Error deleting files")));;
        mret (JSON {[ "message" := VStr "File deleted successfully" ]})
      else
        raise (HTTPException status.HTTP_400_BAD_REQUEST
                 (DEFAULT "Error deleting file"))
  | None => not_found
  end.

(** *** The identifier-addressed routes *)

(** The routes with an [{id}] in their path, as the decorators register
    them. *)
Inductive id_route :=
| GET_id
| GET_id_data_content
| POST_id_data_content_update (form_data : string)
| GET_id_content
| GET_id_content_html
| GET_id_content_file_name
| DELETE_id.

Definition serve (route : id_route) (id : string) (user : User.t) : M W response :=
  match route with
  | GET_id => get_file_by_id id user
  | GET_id_data_content => get_file_data_content_by_id id user
  | POST_id_data_content_update form_data =>
      update_file_data_content_by_id id form_data user
  | GET_id_content => get_file_content_by_id id user
  | GET_id_content_html => get_html_file_content_by_id id user
  | GET_id_content_file_name => get_file_content_by_id_file_name id user
  | DELETE_id => delete_file_by_id id user
  end.

(** *** Names for what the handlers build *)

(** The key under which [upload_file] writes the blob. *)
Definition storage_key (uuid4 name : string) : string := uuid4 +:+ "_" +:+ name.

Definition storage_upload_failed : exn :=
  HTTPException status.HTTP_500_INTERNAL_SERVER_ERROR (DEFAULT "Storage upload failed").

Definition database_record_creation_failed : exn :=
  HTTPException status.HTTP_500_INTERNAL_SERVER_ERROR
    (DEFAULT "Database record creation failed").

(** What the outer [except Exception as e] clause raises for [e]. *)
Definition unexpected_error (e : exn) : exn :=
  HTTPException status.HTTP_400_BAD_REQUEST (DEFAULT (str_exn e)).

(** The form [upload_file] hands to the registry. *)
Definition upload_form file (uuid4 : string) (contents : bytes) (file_path : string)
  : FileForm.t :=
  let name := basename (UploadFile.filename file) in
  {| FileForm.id := uuid4;
     FileForm.filename := name;
     FileForm.path := file_path;
     FileForm.meta :=
       {[ "name" := VStr name;
          "content_type" := UploadFile.content_type file;
          "size" := VInt (len contents) ]} |}.

Definition upload_key file (uuid4 : string) : string :=
  storage_key uuid4 (basename (UploadFile.filename file)).

Definition upload_process_form (uuid4 : string) : ProcessFileForm.t :=
  {| ProcessFileForm.file_id := uuid4; ProcessFileForm.content := None |}.

(** The form [update_file_data_content_by_id] hands to the processor. *)
Definition update_process_form (id form_data : string) : ProcessFileForm.t :=
  {| ProcessFileForm.file_id := id; ProcessFileForm.content := Some form_data |}.

End Router.

Arguments found_and_allowed : simpl never.
Arguments new_FileResponse : simpl never.
Arguments new_StreamingResponse : simpl never.

(** ** An in-memory registry, storage and processor *)

Module InMemory.

(** Modelled from the spec: the Metadata Registry, the Blob Storage and the
    Content Processor are not part of the router's source.  The registry
    persists file records keyed by identifier, the storage persists raw
    bytes by path, and the processor derives content from a stored file
    and updates the record.  The three [_fault] fields let each
    collaborator fail: a StorageError, a PersistenceError, a
    ProcessingError. *)
Record world := World {
  registry : list FileModel.t;
  blobs : gmap string bytes;
  storage_fault : option exn;
  registry_fault : option exn;
  processor_fault : option exn;
}.

Definition UPLOAD_DIR : string := "uploads".

Definition set_registry (w : world) (r : list FileModel.t) : world :=
  World r (blobs w) (storage_fault w) (registry_fault w) (processor_fault w).

Definition set_blobs (w : world) (b : gmap string bytes) : world :=
  World (registry w) b (storage_fault w) (registry_fault w) (processor_fault w).

Definition has_id (id : string) (f : FileModel.t) : bool :=
  bool_decide (FileModel.id f = id).

Definition owned_by (user_id : string) (f : FileModel.t) : bool :=
  bool_decide (FileModel.user_id f = user_id).

(** Modelled from the spec: Blob Storage, upload→(bytes,path). *)
Definition upload_file (contents : bytes) (filename : string) (w : world)
  : result (bytes * string) * world :=
  match storage_fault w with
  | Some e => (inl e, w)
  | None =>
      let file_path := UPLOAD_DIR +:+ "/" +:+ filename in
      (inr (contents, file_path), set_blobs w (<[file_path := contents]> (blobs w)))
  end.

(** Modelled from the spec: Blob Storage, get-file-by-path→local path. *)
Definition get_file (path : option string) (w : world) : result string * world :=
  match storage_fault w, path with
  | Some e, _ => (inl e, w)
  | None, Some p => (inr p, w)
  | None, None => (inl (Exception "expected str, not NoneType"), w)
  end.

(** Modelled from the spec: Blob Storage, delete-by-name.  A name with no
    blob is not an error. *)
Definition delete_file (filename : string) (w : world) : result unit * world :=
  match storage_fault w with
  | Some e => (inl e, w)
  | None => (inr (), set_blobs w (delete (UPLOAD_DIR +:+ "/" +:+ filename) (blobs w)))
  end.

(** Modelled from the spec: Blob Storage, delete-all. *)
Definition delete_all_blobs (w : world) : result unit * world :=
  match storage_fault w with
  | Some e => (inl e, w)
  | None => (inr (), set_blobs w ∅)
  end.

(** Modelled from the spec: Metadata Registry, insert.  The record takes
    the form's fields and the caller as owner. *)
Definition insert_new_file (user_id : string) (form : FileForm.t) (w : world)
  : result (option FileModel.t) * world :=
  match registry_fault w with
  | Some e => (inl e, w)
  | None =>
      let f := {| FileModel.id := FileForm.id form;
                  FileModel.user_id := user_id;
                  FileModel.filename := FileForm.filename form;
                  FileModel.path := Some (FileForm.path form);
                  FileModel.meta := FileForm.meta form;
                  FileModel.data := ∅;
                  FileModel.content := ∅ |} in
      (inr (Some f), set_registry w (registry w ++ [f]))
  end.

(** Modelled from the spec: Metadata Registry, get-by-id. *)
Definition get_file_by_id (id : string) (w : world)
  : result (option FileModel.t) * world :=
  (inr (List.find (has_id id) (registry w)), w).

(** Modelled from the spec: Metadata Registry, get-all. *)
Definition get_files (w : world) : result (list FileModel.t) * world :=
  (inr (registry w), w).

(** Modelled from the spec: Metadata Registry, get-by-user: the records
    owned by the caller. *)
Definition get_files_by_user_id (user_id : string) (w : world)
  : result (list FileModel.t) * world :=
  (inr (List.filter (owned_by user_id) (registry w)), w).

(** Modelled from the spec: Metadata Registry, delete-by-id; reports
    failure by returning [False]. *)
Definition delete_file_by_id (id : string) (w : world) : result bool * world :=
  match registry_fault w with
  | Some _ => (inr false, w)
  | None =>
      (inr true, set_registry w (List.filter (λ f, negb (has_id id f)) (registry w)))
  end.

(** Modelled from the spec: Metadata Registry, delete-all. *)
Definition delete_all_files (w : world) : result bool * world :=
  match registry_fault w with
  | Some _ => (inr false, w)
  | None => (inr true, set_registry w [])
  end.

Definition set_content (text : string) (f : FileModel.t) : FileModel.t :=
  {| FileModel.id := FileModel.id f;
     FileModel.user_id := FileModel.user_id f;
     FileModel.filename := FileModel.filename f;
     FileModel.path := FileModel.path f;
     FileModel.meta := FileModel.meta f;
     FileModel.data := <["content" := VStr text]> (FileModel.data f);
     FileModel.content := FileModel.content f |}.

(** Modelled from the spec: Content Processor, process(file_id, optional
    replacement content) → mutates record, fails with a processing error.
    The derived content is the replacement when there is one and the
    stored bytes otherwise. *)
Definition process (form : ProcessFileForm.t) (w : world) : result unit * world :=
  match processor_fault w with
  | Some e => (inl e, w)
  | None =>
      let id := ProcessFileForm.file_id form in
      match List.find (has_id id) (registry w) with
      | None => (inl (Exception "file not found"), w)
      | Some f =>
          let text :=
            match ProcessFileForm.content form with
            | Some text => text
            | None =>
                match FileModel.path f ≫= (λ p, blobs w !! p) with
                | Some contents => contents
                | None => ""
                end
            end in
          (inr (),
           set_registry w
             (List.map (λ g, if has_id id g then set_content text g else g)
                       (registry w)))
      end
  end.

Definition is_file (path : string) (w : world) : bool :=
  bool_decide (is_Some (blobs w !! path)).

#[global] Instance collaborators : Collaborators world := {|
  storage_upload_file := upload_file;
  storage_get_file := get_file;
  storage_delete_file := delete_file;
  storage_delete_all_files := delete_all_blobs;
  files_insert_new_file := insert_new_file;
  files_get_file_by_id := get_file_by_id;
  files_get_files := get_files;
  files_get_files_by_user_id := get_files_by_user_id;
  files_delete_file_by_id := delete_file_by_id;
  files_delete_all_files := delete_all_files;
  run_process_file := process;
  path_is_file := is_file;
|}.

(** Messages to run the handlers with; the theorems hold for any. *)
#[global] Instance constants : Constants := {|
  DEFAULT err := "Something went wrong :/ " +:+ err;
  NOT_FOUND := "We could not find what you're looking for :/";
  str_dict d := "{...}";
|}.

Definition empty : world := World [] ∅ None None None.

Definition start (w : world) : state world := State w [].

End InMemory.

(** ** Sample requests *)

Module Sample.

Definition alice : User.t := {| User.id := "alice"; User.role := "user" |}.
Definition bob : User.t := {| User.id := "bob"; User.role := "user" |}.
Definition root : User.t := {| User.id := "root"; User.role := "admin" |}.

Definition passwd : UploadFile.t :=
  {| UploadFile.filename := "../../etc/passwd";
     UploadFile.content_type := VStr "text/plain";
     UploadFile.file := "root:x:0:0" |}.

(** The record that uploading [passwd] as [alice] with identifier ["u1"]
    inserts. *)
Definition passwd_record : FileModel.t :=
  {| FileModel.id := "u1";
     FileModel.user_id := "alice";
     FileModel.filename := "passwd";
     FileModel.path := Some "uploads/u1_passwd";
     FileModel.meta :=
       {[ "name" := VStr "passwd";
          "content_type" := VStr "text/plain";
          "size" := VInt 10 ]};
     FileModel.data := ∅;
     FileModel.content := ∅ |}.

(** A world with that record and its blob. *)
Definition uploaded : InMemory.world :=
  InMemory.World [passwd_record] {[ "uploads/u1_passwd" := "root:x:0:0" ]}
    None None None.

(** The same record with the blob gone. *)
Definition blob_missing : InMemory.world :=
  InMemory.World [passwd_record] ∅ None None None.

Definition storage_down (w : InMemory.world) : InMemory.world :=
  InMemory.World (InMemory.registry w) (InMemory.blobs w)
    (Some (Exception "disk full")) (InMemory.registry_fault w)
    (InMemory.processor_fault w).

Definition registry_down (w : InMemory.world) : InMemory.world :=
  InMemory.World (InMemory.registry w) (InMemory.blobs w)
    (InMemory.storage_fault w) (Some (Exception "database is locked"))
    (InMemory.processor_fault w).

Definition processor_down (e : exn) (w : InMemory.world) : InMemory.world :=
  InMemory.World (InMemory.registry w) (InMemory.blobs w)
    (InMemory.storage_fault w) (InMemory.registry_fault w) (Some e).

End Sample.

(** ** Kinds of calls and routes *)

(** The calls that ask a collaborator to delete. *)
Definition is_delete (c : call) : bool :=
  match c with
  | Call_Storage_delete_file _ | Call_Storage_delete_all_files
  | Call_Files_delete_file_by_id _ | Call_Files_delete_all_files => true
  | _ => false
  end.

(** The calls that can change the registry, the storage or a record: all but
    the lookups, the listings and the resolution of a path. *)
Definition is_write (c : call) : bool :=
  match c with
  | Call_Files_get_file_by_id _ | Call_Files_get_files
  | Call_Files_get_files_by_user_id _ | Call_Storage_get_file _ => false
  | _ => true
  end.

(** The routes registered with [@router.get]. *)
Definition is_get_route (route : id_route) : bool :=
  match route with
  | GET_id | GET_id_data_content | GET_id_content | GET_id_content_html
  | GET_id_content_file_name => true
  | POST_id_data_content_update _ | DELETE_id => false
  end.

(** ** Scripted collaborators *)

Module Scripted.

(** A stub of the collaborators for running the handlers on outcomes that
    the in-memory ones never produce: every operation ignores its arguments
    and answers what the script says.  The world counts the calls of
    [Files.get_file_by_id], so that a script can answer the first lookup and
    the next one differently. *)
Record script := Script {
  upload : result (bytes * string);
  resolve : result string;
  delete_blob : result unit;
  delete_blobs : result unit;
  insert : result (option FileModel.t);
  lookup : nat → result (option FileModel.t);
  files : result (list FileModel.t);
  own_files : result (list FileModel.t);
  delete_record : result bool;
  delete_records : result bool;
  process : result unit;
  exists_ : bool;
}.

Definition collaborators (s : script) : Collaborators nat := {|
  storage_upload_file _ _ n := (upload s, n);
  storage_get_file _ n := (resolve s, n);
  storage_delete_file _ n := (delete_blob s, n);
  storage_delete_all_files n := (delete_blobs s, n);
  files_insert_new_file _ _ n := (insert s, n);
  files_get_file_by_id _ n := (lookup s n, S n);
  files_get_files n := (files s, n);
  files_get_files_by_user_id _ n := (own_files s, n);
  files_delete_file_by_id _ n := (delete_record s, n);
  files_delete_all_files n := (delete_records s, n);
  run_process_file _ n := (process s, n);
  path_is_file _ n := exists_ s;
|}.

Definition down : exn := Exception "connection refused".

(** Every operation succeeds and every lookup finds [f]. *)
Definition fine (f : FileModel.t) : script :=
  {| upload := inr ("root:x:0:0", "uploads/u1_passwd");
     resolve := inr "uploads/u1_passwd";
     delete_blob := inr ();
     delete_blobs := inr ();
     insert := inr (Some f);
     lookup := λ _, inr (Some f);
     files := inr [f];
     own_files := inr [f];
     delete_record := inr true;
     delete_records := inr true;
     process := inr ();
     exists_ := true |}.

Definition with_lookup (l : nat → result (option FileModel.t)) (s : script) : script :=
  Script (upload s) (resolve s) (delete_blob s) (delete_blobs s) (insert s) l
    (files s) (own_files s) (delete_record s) (delete_records s) (process s)
    (exists_ s).

Definition with_insert (i : result (option FileModel.t)) (s : script) : script :=
  Script (upload s) (resolve s) (delete_blob s) (delete_blobs s) i (lookup s)
    (files s) (own_files s) (delete_record s) (delete_records s) (process s)
    (exists_ s).

Definition with_resolve (r : result string) (s : script) : script :=
  Script (upload s) r (delete_blob s) (delete_blobs s) (insert s) (lookup s)
    (files s) (own_files s) (delete_record s) (delete_records s) (process s)
    (exists_ s).

Definition with_delete_record (d : result bool) (s : script) : script :=
  Script (upload s) (resolve s) (delete_blob s) (delete_blobs s) (insert s)
    (lookup s) (files s) (own_files s) d (delete_records s) (process s)
    (exists_ s).

Definition with_delete_records (d : result bool) (s : script) : script :=
  Script (upload s) (resolve s) (delete_blob s) (delete_blobs s) (insert s)
    (lookup s) (files s) (own_files s) (delete_record s) d (process s)
    (exists_ s).

(** The first lookup answers [first], every later one [later]. *)
Definition first_then (first later : result (option FileModel.t))
  : nat → result (option FileModel.t) :=
  λ n, match n with O => first | S _ => later end.

Definition start : state nat := State 0%nat [].

End Scripted.

(** A record without a blob: its path is [None] and its text is inline. *)
Definition text_only_record : FileModel.t :=
  {| FileModel.id := "n1";
     FileModel.user_id := "alice";
     FileModel.filename := "note.txt";
     FileModel.path := None;
     FileModel.meta := ∅;
     FileModel.data := ∅;
     FileModel.content := {[ "content" := VStr "hello" ]} |}.

(** ** The calls and the answers of an upload *)

Section UploadAnswers.
Context `{Constants}.

(** The four calls of a complete upload. *)
Definition upload_calls (file : UploadFile.t) (user : User.t) (uuid4 : string) (contents : bytes)
    (file_path : string) : list call :=
  [Call_Storage_upload_file (UploadFile.file file) (upload_key file uuid4);
   Call_Files_insert_new_file (User.id user)
     (upload_form file uuid4 contents file_path);
   Call_process_file (upload_process_form uuid4);
   Call_Files_get_file_by_id uuid4].

(** What [upload_file] can answer. *)
Inductive upload_answer : result response → Prop :=
| upload_answer_record payload : upload_answer (inr (Model payload))
| upload_answer_storage :
    upload_answer (inl (unexpected_error storage_upload_failed))
| upload_answer_registry :
    upload_answer (inl (unexpected_error database_record_creation_failed))
| upload_answer_vanished :
    upload_answer (inl (unexpected_error (AttributeError "id"))).

End UploadAnswers.

(** A record whose extracted content is ["old text"]. *)
Definition processed_record : FileModel.t :=
  {| FileModel.id := "u1";
     FileModel.user_id := "alice";
     FileModel.filename := "passwd";
     FileModel.path := Some "uploads/u1_passwd";
     FileModel.meta := {[ "name" := VStr "passwd" ]};
     FileModel.data := {[ "content" := VStr "old text" ]};
     FileModel.content := ∅ |}.

Definition processed : InMemory.world :=
  InMemory.World [processed_record] {[ "uploads/u1_passwd" := "root:x:0:0" ]}
    None None None.

(** An upload whose name has code points above U+00FF, its record and a
    world that holds both record and blob. *)
Definition nihon : UploadFile.t :=
  {| UploadFile.filename := "日本.txt";
     UploadFile.content_type := VStr "text/plain";
     UploadFile.file := "ab" |}.

Definition nihon_record : FileModel.t :=
  {| FileModel.id := "u2";
     FileModel.user_id := "alice";
     FileModel.filename := "日本.txt";
     FileModel.path := Some "uploads/u2_日本.txt";
     FileModel.meta :=
       {[ "name" := VStr "日本.txt";
          "content_type" := VStr "text/plain";
          "size" := VInt 2 ]};
     FileModel.data := ∅;
     FileModel.content := ∅ |}.

Definition nihon_uploaded : InMemory.world :=
  InMemory.World [nihon_record] {[ "uploads/u2_日本.txt" := "ab" ]} None None None.

(** A text-only record whose filename has code points above U+00FF. *)
Definition nihon_note : FileModel.t :=
  {| FileModel.id := "n2";
     FileModel.user_id := "alice";
     FileModel.filename := "日本.txt";
     FileModel.path := None;
     FileModel.meta := ∅;
     FileModel.data := ∅;
     FileModel.content := {[ "content" := VStr "hello" ]} |}.

(** * Properties *)

(** ** Strings *)

Lemma app_cons (a : ascii) (s t : string) : String a s +:+ t = String a (s +:+ t).
Proof. reflexivity. Qed.

Lemma app_empty_l (t : string) : "" +:+ t = t.
Proof. reflexivity. Qed.

Lemma app_assoc_string (s t u : string) : (s +:+ t) +:+ u = s +:+ (t +:+ u).
Proof.
  induction s as [|a s IH]; [reflexivity|].
  rewrite !app_cons. by rewrite IH.
Qed.

Lemma length_app_string (s t : string) :
  String.length (s +:+ t) = (String.length s + String.length t)%nat.
Proof.
  induction s as [|a s IH]; [reflexivity|].
  rewrite app_cons. simpl. by rewrite IH.
Qed.


(** No string is its own proper extension to the left. *)
Lemma app_neq_tail (prefix t : string) : prefix ≠ "" → prefix +:+ t ≠ t.
Proof.
  intros Hne Heq. apply (f_equal String.length) in Heq.
  rewrite length_app_string in Heq.
  destruct prefix; [done|]. simpl in Heq. lia.
Qed.

(** ** [basename] *)

(** What [rfind_from] computes, for a scan that starts at index [i] with the
    answer so far below [i]: either no [c] is left and the answer stays, or
    the answer is the index of a [c] after which no [c] comes. *)
Lemma rfind_from_spec (c : ascii) (p : string) (i last : Z) :
  (last < i)%Z →
  let r := rfind_from c p i last in
  let tail := slice_from (Z.to_nat (r + 1 - i)) p in
  (r = last ∧ contains c p = false ∧ tail = p)
  ∨ ((i ≤ r)%Z ∧ contains c tail = false
     ∧ ∃ dir, p = (dir +:+ String c "") +:+ tail).
Proof.
  revert i last. induction p as [|a p IH]; intros i last Hlt; simpl.
  - left. repeat split. by replace (Z.to_nat (last + 1 - i)) with 0%nat by lia.
  - destruct (Ascii.eqb_spec a c) as [->|Hac].
    + destruct (IH (i + 1) i ltac:(lia)) as [(Hr & Hno & _)|(Hle & Hno & dir & Hp)].
      * right. rewrite Hr.
        replace (Z.to_nat (i + 1 - i)) with 1%nat by lia. simpl.
        split; [lia|]. split; [done|]. by exists "".
      * right. split; [lia|].
        set (r := rfind_from c p (i + 1) i) in *.
        replace (Z.to_nat (r + 1 - i)) with (S (Z.to_nat (r + 1 - (i + 1)))) by lia.
        simpl. split; [done|].
        exists (String c dir). rewrite !app_cons. by f_equal.
    + destruct (IH (i + 1) last ltac:(lia)) as [(Hr & Hno & _)|(Hle & Hno & dir & Hp)].
      * left. rewrite Hr.
        replace (Z.to_nat (last + 1 - i)) with 0%nat by lia. by rewrite Hno.
      * right. split; [lia|].
        set (r := rfind_from c p (i + 1) last) in *.
        replace (Z.to_nat (r + 1 - i)) with (S (Z.to_nat (r + 1 - (i + 1)))) by lia.
        simpl. split; [done|].
        exists (String a dir). rewrite !app_cons. by f_equal.
Qed.

(** [basename p] holds no separator, and [p] is a directory part, empty or
    ending in a separator, followed by [basename p]. *)
Lemma basename_spec (p : string) :
  contains "/" (basename p) = false
  ∧ ∃ dir, p = dir +:+ basename p ∧ (dir = "" ∨ ∃ d, dir = d +:+ "/").
Proof.
  unfold basename, rfind.
  destruct (rfind_from_spec "/" p 0 (-1) ltac:(lia)) as [(Hr & Hno & Ht)|(Hle & Hno & dir & Hp)];
    rewrite Z.sub_0_r in *.
  - rewrite Ht. split; [done|]. exists "". by split; [|left].
  - split; [done|]. exists (dir +:+ "/"). split; [done|]. right. by exists dir.
Qed.

(** ** Encoding the headers *)

Lemma latin1_encodable_app (s t : string) :
  latin1_encodable (s +:+ t) = latin1_encodable s && latin1_encodable t.
Proof.
  induction s as [|a s IH]; [reflexivity|].
  rewrite app_cons. simpl. rewrite IH. by rewrite andb_assoc.
Qed.

Lemma init_headers_singleton (k v : string) :
  init_headers {[ k := v ]}
  = if latin1_encodable k && latin1_encodable v then inr () else inl UnicodeEncodeError.
Proof.
  unfold init_headers. rewrite map_to_list_singleton. simpl.
  by rewrite andb_true_r.
Qed.

Lemma new_FileResponse_singleton {W} (file_path k v : string) (st : state W) :
  latin1_encodable k = true →
  new_FileResponse file_path {[ k := v ]} st
  = if latin1_encodable v
    then (inr (FileResponse file_path {[ k := v ]}), st)
    else (inl UnicodeEncodeError, st).
Proof.
  intros Hk. unfold new_FileResponse. rewrite init_headers_singleton, Hk.
  by destruct (latin1_encodable v).
Qed.

Lemma new_StreamingResponse_singleton {W} (file_content : value)
    (media_type k v : string) (st : state W) :
  latin1_encodable k = true →
  new_StreamingResponse file_content media_type {[ k := v ]} st
  = if latin1_encodable v
    then (inr (StreamingResponse file_content media_type {[ k := v ]}), st)
    else (inl UnicodeEncodeError, st).
Proof.
  intros Hk. unfold new_StreamingResponse. rewrite init_headers_singleton, Hk.
  by destruct (latin1_encodable v).
Qed.

(** ** Running the handlers *)

Ltac unfold_monad :=
  unfold try_except, attempt, raise, getattr, not_found, is_file,
    Storage_upload_file, Storage_get_file, Storage_delete_file,
    Storage_delete_all_files, Files_insert_new_file, Files_get_file_by_id,
    Files_get_files, Files_get_files_by_user_id, Files_delete_file_by_id,
    Files_delete_all_files, process_file, invoke,
    mbind, M_bind, mret, M_ret in *;
  simpl in *.

(** Rewrites with the outcome [Hop] of a collaborator call and simplifies. *)
Ltac run_with Hop := rewrite ?Hop; simpl; rewrite <- ?app_assoc; simpl.

Section Properties.
Context {W : Type} `{Collaborators W} `{Constants}.

Implicit Types (st : state W) (user : User.t) (file : UploadFile.t).


Lemma storage_key_neq_name (id name : string) : storage_key id name ≠ name.
Proof.
  unfold storage_key. rewrite <- app_assoc_string.
  apply app_neq_tail. by destruct id.
Qed.

Lemma upload_file_storage_raises file user uuid4 st e w1 :
  storage_upload_file (UploadFile.file file) (upload_key file uuid4) (world st)
    = (inl e, w1) →
  upload_file file user uuid4 st
  = (inl (unexpected_error storage_upload_failed),
     State w1 (calls st ++ [Call_Storage_upload_file (UploadFile.file file)
                              (upload_key file uuid4)])).
Proof.
  unfold upload_key, storage_key. intros Hup.
  unfold upload_file. unfold_monad. by run_with Hup.
Qed.

Lemma upload_file_insert_raises file user uuid4 st contents file_path w1 e w2 :
  storage_upload_file (UploadFile.file file) (upload_key file uuid4) (world st)
    = (inr (contents, file_path), w1) →
  files_insert_new_file (User.id user) (upload_form file uuid4 contents file_path) w1
    = (inl e, w2) →
  upload_file file user uuid4 st
  = (inl (unexpected_error database_record_creation_failed),
     State w2 (calls st ++
       [Call_Storage_upload_file (UploadFile.file file) (upload_key file uuid4);
        Call_Files_insert_new_file (User.id user)
          (upload_form file uuid4 contents file_path)])).
Proof.
  unfold upload_key, storage_key, upload_form. intros Hup Hins.
  unfold upload_file. unfold_monad. run_with Hup. by run_with Hins.
Qed.

(** An insert that returns [None] fails at [file_item.id], inside the
    [try] around the insert. *)
Lemma upload_file_insert_none file user uuid4 st contents file_path w1 w2 :
  storage_upload_file (UploadFile.file file) (upload_key file uuid4) (world st)
    = (inr (contents, file_path), w1) →
  files_insert_new_file (User.id user) (upload_form file uuid4 contents file_path) w1
    = (inr None, w2) →
  upload_file file user uuid4 st
  = (inl (unexpected_error database_record_creation_failed),
     State w2 (calls st ++
       [Call_Storage_upload_file (UploadFile.file file) (upload_key file uuid4);
        Call_Files_insert_new_file (User.id user)
          (upload_form file uuid4 contents file_path)])).
Proof.
  unfold upload_key, storage_key, upload_form. intros Hup Hins.
  unfold upload_file. unfold_monad. run_with Hup. by run_with Hins.
Qed.

(** The processor raises: the inserted record is returned with the message
    under ["error"], and no collaborator is called after the processor. *)
Lemma upload_file_processor_raises file user uuid4 st contents file_path w1
    file_item w2 process_error w3 :
  storage_upload_file (UploadFile.file file) (upload_key file uuid4) (world st)
    = (inr (contents, file_path), w1) →
  files_insert_new_file (User.id user) (upload_form file uuid4 contents file_path) w1
    = (inr (Some file_item), w2) →
  run_process_file (upload_process_form uuid4) w2 = (inl process_error, w3) →
  upload_file file user uuid4 st
  = (inr (Model (<["error" := VStr (error_message process_error)]>
                   (model_dump file_item))),
     State w3 (calls st ++
       [Call_Storage_upload_file (UploadFile.file file) (upload_key file uuid4);
        Call_Files_insert_new_file (User.id user)
          (upload_form file uuid4 contents file_path);
        Call_process_file (upload_process_form uuid4)])).
Proof.
  unfold upload_key, storage_key, upload_form, upload_process_form.
  intros Hup Hins Hproc.
  unfold upload_file, upload_file_process_error. unfold_monad.
  run_with Hup. run_with Hins. by run_with Hproc.
Qed.

(** [upload_file] always calls the storage first, with the key, and any
    record it asks the registry to insert carries the drawn identifier and
    the sanitized name. *)
Lemma upload_file_calls file user uuid4 st :
  let name := basename (UploadFile.filename file) in
  ∃ rest,
    calls (snd (upload_file file user uuid4 st))
    = calls st ++ Call_Storage_upload_file (UploadFile.file file)
                    (storage_key uuid4 name) :: rest
    ∧ ∀ uid form, Call_Files_insert_new_file uid form ∈ rest →
        FileForm.id form = uuid4 ∧ FileForm.filename form = name.
Proof.
  intros name. unfold upload_file, upload_file_process_error, storage_key.
  unfold_monad. fold name.
  destruct (storage_upload_file _ _ (world st)) as [[e|[contents path]] w1] eqn:Hup; simpl.
  { exists []. split; [done|]. intros ?? Hin. by apply elem_of_nil in Hin. }
  destruct (files_insert_new_file _ _ w1) as [[e|[file_item|]] w2] eqn:Hins; simpl.
  1, 3: eexists [_]; rewrite <- app_assoc; split; [done|];
        intros ?? [[= -> ->] | []%elem_of_nil]%elem_of_cons; done.
  destruct (run_process_file _ w2) as [[e|[]] w3] eqn:Hproc; simpl.
  { eexists [_; _]. rewrite <- !app_assoc. split; [done|].
    intros ?? [[= -> ->] | [[=] | []%elem_of_nil]%elem_of_cons]%elem_of_cons; done. }
  destruct (files_get_file_by_id _ w3) as [[e|[fetched|]] w4] eqn:Hget; simpl;
    (eexists [_; _; _]; rewrite <- !app_assoc; split; [done|];
     intros ?? [[= -> ->] | [[=] | [[=] | []%elem_of_nil]%elem_of_cons]%elem_of_cons]%elem_of_cons;
     done).
Qed.

(** No record of the registry has an ["error"] key: the key exists in the
    response of [upload_file] only. *)
Lemma model_dump_no_error (f : FileModel.t) : model_dump f !! "error" = None.
Proof. unfold model_dump. by rewrite !lookup_insert_ne, lookup_empty. Qed.

(** ** Upload: the processor fails *)

(** C1 (amended): when the blob write and the record insert succeed and the
    Content Processor raises, [upload_file] answers 200 with the inserted
    record and, under ["error"], the message of the failure (its [detail]
    when it has one, its text otherwise), which is as empty as that message
    is; every other key is the record's.  The handler calls no collaborator
    after the processor, so the world is the one the processor left, and a
    record fetched again from the registry has no ["error"] key. *)
Theorem upload_file_processor_failure file user uuid4 st contents file_path w1
    file_item w2 process_error w3 :
  storage_upload_file (UploadFile.file file) (upload_key file uuid4) (world st)
    = (inr (contents, file_path), w1) →
  files_insert_new_file (User.id user) (upload_form file uuid4 contents file_path) w1
    = (inr (Some file_item), w2) →
  run_process_file (upload_process_form uuid4) w2 = (inl process_error, w3) →
  ∃ payload,
    fst (upload_file file user uuid4 st) = inr (Model payload)
    ∧ http_status (fst (upload_file file user uuid4 st)) = 200
    ∧ payload !! "error" = Some (VStr (error_message process_error))
    ∧ (∀ key, key ≠ "error" → payload !! key = model_dump file_item !! key)
    ∧ world (snd (upload_file file user uuid4 st)) = w3
    ∧ calls (snd (upload_file file user uuid4 st))
      = calls st ++
        [Call_Storage_upload_file (UploadFile.file file) (upload_key file uuid4);
         Call_Files_insert_new_file (User.id user)
           (upload_form file uuid4 contents file_path);
         Call_process_file (upload_process_form uuid4)]
    ∧ ∀ fetched w4,
        files_get_file_by_id uuid4 w3 = (inr (Some fetched), w4) →
        model_dump fetched !! "error" = None.
Proof.
  intros Hup Hins Hproc.
  rewrite (upload_file_processor_raises _ _ _ _ _ _ _ _ _ _ _ Hup Hins Hproc).
  eexists. split; [reflexivity|]. split; [reflexivity|].
  split; [apply lookup_insert_eq|].
  split; [intros key Hkey; by apply lookup_insert_ne|].
  split; [reflexivity|]. split; [reflexivity|].
  intros fetched w4 _. apply model_dump_no_error.
Qed.

End Properties.

(** C1, witness: the processor answers 400 "No text extracted". *)
Lemma upload_file_processor_failure_witness :
  ∃ payload,
    fst (upload_file Sample.passwd Sample.alice "u1"
           (InMemory.start
              (Sample.processor_down (HTTPException 400 "No text extracted")
                 InMemory.empty)))
    = inr (Model payload)
    ∧ payload !! "error" = Some (VStr "No text extracted").
Proof.
  set (w := Sample.processor_down (HTTPException 400 "No text extracted") InMemory.empty).
  destruct (upload_file_processor_failure Sample.passwd Sample.alice "u1"
              (InMemory.start w)
              "root:x:0:0" "uploads/u1_passwd"
              (InMemory.set_blobs w {[ "uploads/u1_passwd" := "root:x:0:0" ]})
              Sample.passwd_record
              (Sample.processor_down (HTTPException 400 "No text extracted")
                 Sample.uploaded)
              (HTTPException 400 "No text extracted")
              (Sample.processor_down (HTTPException 400 "No text extracted")
                 Sample.uploaded))
    as (payload & Hres & _ & Herr & _).
  - vm_compute. reflexivity.
  - vm_compute. reflexivity.
  - vm_compute. reflexivity.
  - exists payload. split; [exact Hres | exact Herr].
Defined.

(** C1, counterexample: the blob write and the insert succeed, the processor
    raises an exception whose text is empty, and the answer is 200 with an
    ["error"] field that is the empty string. *)
Lemma upload_file_error_field_empty :
  let w := Sample.processor_down (Exception "") InMemory.empty in
  let answer := upload_file Sample.passwd Sample.alice "u1" (InMemory.start w) in
  (∃ w1 w2 w3,
     InMemory.upload_file "root:x:0:0" "u1_passwd" w
       = (inr ("root:x:0:0", "uploads/u1_passwd"), w1)
     ∧ InMemory.insert_new_file "alice"
         (upload_form Sample.passwd "u1" "root:x:0:0" "uploads/u1_passwd") w1
       = (inr (Some Sample.passwd_record), w2)
     ∧ InMemory.process (upload_process_form "u1") w2 = (inl (Exception ""), w3))
  ∧ http_status (fst answer) = 200
  ∧ ∃ payload, fst answer = inr (Model payload) ∧ payload !! "error" = Some (VStr "").
Proof.
  split; [|split].
  - do 3 eexists. split; [|split]; vm_compute; reflexivity.
  - vm_compute. reflexivity.
  - eexists. split; vm_compute; reflexivity.
Qed.

(** ** Upload: the storage or the registry fails *)

(** C2, at the failing inputs: with the storage down the handler answers 400,
    not 500, having called the storage only; with the registry down it
    answers 400, not 500, and the registry holds no record.  The 500 that
    the inner [except] clauses raise is caught by the outer
    [except Exception] and raised again as a 400. *)
Theorem upload_file_storage_or_registry_failure :
  let storage_answer :=
    upload_file Sample.passwd Sample.alice "u1"
      (InMemory.start (Sample.storage_down InMemory.empty)) in
  let registry_answer :=
    upload_file Sample.passwd Sample.alice "u1"
      (InMemory.start (Sample.registry_down InMemory.empty)) in
  (fst storage_answer = inl (unexpected_error storage_upload_failed)
   ∧ http_status (fst storage_answer) = 400
   ∧ calls (snd storage_answer) = [Call_Storage_upload_file "root:x:0:0" "u1_passwd"]
   ∧ InMemory.registry (world (snd storage_answer)) = [])
  ∧ (fst registry_answer = inl (unexpected_error database_record_creation_failed)
     ∧ http_status (fst registry_answer) = 400
     ∧ InMemory.registry (world (snd registry_answer)) = []).
Proof.
  split.
  - rewrite (upload_file_storage_raises Sample.passwd Sample.alice "u1" _
               (Exception "disk full") (Sample.storage_down InMemory.empty))
      by (vm_compute; reflexivity).
    repeat split.
  - set (w1 := InMemory.set_blobs (Sample.registry_down InMemory.empty)
                 {[ "uploads/u1_passwd" := "root:x:0:0" ]}).
    rewrite (upload_file_insert_raises Sample.passwd Sample.alice "u1" _
               "root:x:0:0" "uploads/u1_passwd" w1 (Exception "database is locked") w1);
      [repeat split | vm_compute; reflexivity ..].
Qed.

(** ** The ownership check *)

Section Authorization.
Context {W : Type} `{Collaborators W} `{Constants}.

Implicit Types (st : state W) (user : User.t) (f : FileModel.t).

Lemma found_and_allowed_owner_or_admin f user :
  FileModel.user_id f = User.id user ∨ User.role user = "admin" →
  found_and_allowed (Some f) user = Some f.
Proof.
  intros [Howner|Hadmin]; unfold found_and_allowed.
  - by rewrite (bool_decide_eq_true_2 _ Howner).
  - rewrite (bool_decide_eq_true_2 _ Hadmin). by rewrite orb_true_r.
Qed.

Lemma found_and_allowed_stranger (o : option FileModel.t) user :
  o = None
  ∨ (∃ f, o = Some f ∧ FileModel.user_id f ≠ User.id user ∧ User.role user ≠ "admin") →
  found_and_allowed o user = None.
Proof.
  intros [->|(f & -> & Howner & Hadmin)]; unfold found_and_allowed; [done|].
  by rewrite (bool_decide_eq_false_2 _ Howner), (bool_decide_eq_false_2 _ Hadmin).
Qed.

(** C3: on every identifier-addressed route, when the registry has no record
    for the identifier, or has one that the caller does not own while the
    caller is no admin, the handler raises [HTTPException 404] with the
    not-found message right after the lookup: the status is 404, never 403,
    and the answer is the same in both cases. *)
Theorem stranger_gets_not_found (route : id_route) (id : string) user st
    (o : option FileModel.t) (w1 : W) :
  files_get_file_by_id id (world st) = (inr o, w1) →
  o = None
  ∨ (∃ f, o = Some f ∧ FileModel.user_id f ≠ User.id user ∧ User.role user ≠ "admin") →
  serve route id user st
  = (inl (HTTPException status.HTTP_404_NOT_FOUND NOT_FOUND),
     State w1 (calls st ++ [Call_Files_get_file_by_id id]))
  ∧ http_status (fst (serve route id user st)) = 404
  ∧ http_status (fst (serve route id user st)) ≠ status.HTTP_403_FORBIDDEN.
Proof.
  intros Hget Hdenied%found_and_allowed_stranger.
  assert (serve route id user st
          = (inl (HTTPException status.HTTP_404_NOT_FOUND NOT_FOUND),
             State w1 (calls st ++ [Call_Files_get_file_by_id id]))) as Hserve.
  { destruct route; unfold serve, get_file_by_id, get_file_data_content_by_id,
      update_file_data_content_by_id, get_file_content_by_id,
      get_html_file_content_by_id, get_file_content_by_id_file_name,
      delete_file_by_id;
      unfold Files_get_file_by_id, invoke, mbind, M_bind;
      rewrite Hget, Hdenied; reflexivity. }
  rewrite Hserve. split; [done|]. split; [done|].
  cbv [fst http_status status.HTTP_403_FORBIDDEN status.HTTP_404_NOT_FOUND]. lia.
Qed.

(** ** Downloading the bytes *)

(** [GET /{id}/content] for an allowed caller, once the storage has resolved
    the path: the file is sent as an attachment when it exists and the
    header can be encoded; when the file does not exist, the 404 raised
    inside the [try] is caught by [except Exception] and a 400 leaves the
    handler, and so does a 400 when the header cannot be encoded. *)
Lemma get_file_content_by_id_resolved (id : string) user st f w1 file_path w2 :
  files_get_file_by_id id (world st) = (inr (Some f), w1) →
  FileModel.user_id f = User.id user ∨ User.role user = "admin" →
  storage_get_file (FileModel.path f) w1 = (inr file_path, w2) →
  fst (get_file_content_by_id id user st)
  = if path_is_file file_path w2 && latin1_encodable (content_disposition f)
    then inr (FileResponse file_path
                {[ "Content-Disposition" := content_disposition f ]})
    else inl (HTTPException status.HTTP_400_BAD_REQUEST
                (DEFAULT "Error getting file content")).
Proof.
  intros Hget Hallowed%found_and_allowed_owner_or_admin Hpath.
  unfold get_file_content_by_id.
  unfold Files_get_file_by_id, invoke, mbind, M_bind.
  rewrite Hget, Hallowed.
  generalize (content_disposition f). intros header.
  unfold try_except, attempt, Storage_get_file, is_file, invoke, mbind, M_bind.
  simpl. rewrite Hpath. simpl.
  destruct (path_is_file file_path w2); [|done].
  rewrite new_FileResponse_singleton by reflexivity.
  by destruct (latin1_encodable header).
Qed.

(** The sibling route [GET /{id}/content/{file_name}] has no [try] around
    the same test and lets the 404 through, and the [UnicodeEncodeError] of
    a header that cannot be encoded as well. *)
Lemma get_file_content_by_id_file_name_resolved (id : string) user st f w1
    file_path w2 :
  files_get_file_by_id id (world st) = (inr (Some f), w1) →
  FileModel.user_id f = User.id user ∨ User.role user = "admin" →
  truthy_path (FileModel.path f) = true →
  storage_get_file (FileModel.path f) w1 = (inr file_path, w2) →
  fst (get_file_content_by_id_file_name id user st)
  = if path_is_file file_path w2
    then if latin1_encodable (content_disposition f)
         then inr (FileResponse file_path
                     {[ "Content-Disposition" := content_disposition f ]})
         else inl UnicodeEncodeError
    else inl (HTTPException status.HTTP_404_NOT_FOUND NOT_FOUND).
Proof.
  intros Hget Hallowed%found_and_allowed_owner_or_admin Htruthy Hpath.
  unfold get_file_content_by_id_file_name.
  unfold Files_get_file_by_id, invoke, mbind, M_bind.
  rewrite Hget, Hallowed, Htruthy.
  generalize (content_disposition f). intros header.
  unfold Storage_get_file, is_file, invoke. simpl. rewrite Hpath. simpl.
  destruct (path_is_file file_path w2); [|done].
  rewrite new_FileResponse_singleton by reflexivity.
  by destruct (latin1_encodable header).
Qed.

End Authorization.

(** C3, witness: [bob] asks to delete the file of [alice]. *)
Lemma stranger_gets_not_found_witness :
  http_status (fst (serve DELETE_id "u1" Sample.bob (InMemory.start Sample.uploaded)))
  = 404.
Proof.
  apply (stranger_gets_not_found DELETE_id "u1" Sample.bob
           (InMemory.start Sample.uploaded) (Some Sample.passwd_record)
           Sample.uploaded).
  - vm_compute. reflexivity.
  - right. exists Sample.passwd_record.
    split; [reflexivity|]. split; vm_compute; discriminate.
Defined.

(** C4, at the failing input: [alice] asks for the content of her own file
    while the path that the storage resolves is no file.  The handler
    answers 400, not 404; the route [/{id}/content/{file_name}] answers 404
    to the same request. *)
Theorem get_file_content_by_id_blob_missing :
  let st := InMemory.start Sample.blob_missing in
  InMemory.get_file (FileModel.path Sample.passwd_record) Sample.blob_missing
    = (inr "uploads/u1_passwd", Sample.blob_missing)
  ∧ InMemory.is_file "uploads/u1_passwd" Sample.blob_missing = false
  ∧ http_status (fst (get_file_content_by_id "u1" Sample.alice st)) = 400
  ∧ http_status (fst (get_file_content_by_id_file_name "u1" Sample.alice st)) = 404.
Proof.
  split; [vm_compute; reflexivity|]. split; [vm_compute; reflexivity|]. split.
  - rewrite (get_file_content_by_id_resolved "u1" Sample.alice _
               Sample.passwd_record Sample.blob_missing
               "uploads/u1_passwd" Sample.blob_missing);
      [reflexivity | vm_compute; reflexivity | by left | vm_compute; reflexivity].
  - rewrite (get_file_content_by_id_file_name_resolved "u1" Sample.alice _
               Sample.passwd_record Sample.blob_missing
               "uploads/u1_passwd" Sample.blob_missing);
      [reflexivity | vm_compute; reflexivity | by left | reflexivity
      | vm_compute; reflexivity].
Qed.

(** ** Deleting *)

Section Deletion.
Context {W : Type} `{Collaborators W} `{Constants}.

Implicit Types (st : state W) (user : User.t) (f : FileModel.t).

(** C6: for an allowed caller, [delete_file_by_id] deletes the registry
    record first.  When the registry reports failure the answer is a 400 and
    the storage is not called.  When the registry reports success the
    storage is asked next to delete the blob: if that raises, the answer is
    a 400 and the world is the one in which the record is already deleted;
    if it returns, the answer is the success message. *)
Theorem delete_file_by_id_outcomes (id : string) user st f (w1 : W) :
  files_get_file_by_id id (world st) = (inr (Some f), w1) →
  FileModel.user_id f = User.id user ∨ User.role user = "admin" →
  (∀ w2,
     files_delete_file_by_id id w1 = (inr false, w2) →
     delete_file_by_id id user st
     = (inl (HTTPException status.HTTP_400_BAD_REQUEST (DEFAULT "Error deleting file")),
        State w2 (calls st ++ [Call_Files_get_file_by_id id;
                               Call_Files_delete_file_by_id id])))
  ∧ (∀ w2 e w3,
       files_delete_file_by_id id w1 = (inr true, w2) →
       storage_delete_file (FileModel.filename f) w2 = (inl e, w3) →
       delete_file_by_id id user st
       = (inl (HTTPException status.HTTP_400_BAD_REQUEST (DEFAULT "Error deleting files")),
          State w3 (calls st ++ [Call_Files_get_file_by_id id;
                                 Call_Files_delete_file_by_id id;
                                 Call_Storage_delete_file (FileModel.filename f)])))
  ∧ (∀ w2 w3,
       files_delete_file_by_id id w1 = (inr true, w2) →
       storage_delete_file (FileModel.filename f) w2 = (inr (), w3) →
       delete_file_by_id id user st
       = (inr (JSON {[ "message" := VStr "File deleted successfully" ]}),
          State w3 (calls st ++ [Call_Files_get_file_by_id id;
                                 Call_Files_delete_file_by_id id;
                                 Call_Storage_delete_file (FileModel.filename f)]))).
Proof.
  intros Hget Hallowed%found_and_allowed_owner_or_admin.
  unfold delete_file_by_id. unfold_monad. rewrite Hget, Hallowed. simpl.
  split; [|split].
  - intros w2 Hdel. by run_with Hdel.
  - intros w2 e w3 Hdel Hblob. run_with Hdel. by run_with Hblob.
  - intros w2 w3 Hdel Hblob. run_with Hdel. by run_with Hblob.
Qed.

(** C7: [delete_all_files] deletes the records first.  When the registry
    reports failure the answer is a 400 and the storage is not called; when
    the storage raises after the registry succeeded the answer is a 400;
    when both succeed the answer is the success message, whatever the
    registry held. *)
Theorem delete_all_files_outcomes user st :
  (∀ w1,
     files_delete_all_files (world st) = (inr false, w1) →
     delete_all_files user st
     = (inl (HTTPException status.HTTP_400_BAD_REQUEST (DEFAULT "Error deleting files")),
        State w1 (calls st ++ [Call_Files_delete_all_files])))
  ∧ (∀ w1 e w2,
       files_delete_all_files (world st) = (inr true, w1) →
       storage_delete_all_files w1 = (inl e, w2) →
       delete_all_files user st
       = (inl (HTTPException status.HTTP_400_BAD_REQUEST (DEFAULT "Error deleting files")),
          State w2 (calls st ++ [Call_Files_delete_all_files;
                                 Call_Storage_delete_all_files])))
  ∧ (∀ w1 w2,
       files_delete_all_files (world st) = (inr true, w1) →
       storage_delete_all_files w1 = (inr (), w2) →
       delete_all_files user st
       = (inr (JSON {[ "message" := VStr "All files deleted successfully" ]}),
          State w2 (calls st ++ [Call_Files_delete_all_files;
                                 Call_Storage_delete_all_files]))).
Proof.
  unfold delete_all_files. unfold_monad.
  split; [|split].
  - intros w1 Hdel. by run_with Hdel.
  - intros w1 e w2 Hdel Hblob. run_with Hdel. by run_with Hblob.
  - intros w1 w2 Hdel Hblob. run_with Hdel. by run_with Hblob.
Qed.

(** C10: a record that [upload_file] had inserted carries the sanitized name
    as its [filename], while the blob was written under
    [storage_key uuid4 name].  When an allowed caller deletes that record,
    the name given to [Storage.delete_file] is the [filename], and it
    differs from the key of the blob for every identifier, the empty one
    too. *)
Theorem delete_file_by_id_passes_filename (file : UploadFile.t) (uuid4 : string)
    (uploader : User.t) (st0 : state W) user st f (w1 w2 : W) :
  FileModel.filename f = basename (UploadFile.filename file) →
  files_get_file_by_id uuid4 (world st) = (inr (Some f), w1) →
  FileModel.user_id f = User.id user ∨ User.role user = "admin" →
  files_delete_file_by_id uuid4 w1 = (inr true, w2) →
  calls (snd (delete_file_by_id uuid4 user st))
  = calls st ++ [Call_Files_get_file_by_id uuid4;
                 Call_Files_delete_file_by_id uuid4;
                 Call_Storage_delete_file (basename (UploadFile.filename file))]
  ∧ (∃ rest,
       calls (snd (upload_file file uploader uuid4 st0))
       = calls st0 ++ Call_Storage_upload_file (UploadFile.file file)
                        (upload_key file uuid4) :: rest
       ∧ ∀ uid form, Call_Files_insert_new_file uid form ∈ rest →
           FileForm.filename form = basename (UploadFile.filename file))
  ∧ basename (UploadFile.filename file) ≠ upload_key file uuid4.
Proof.
  intros Hname Hget Hallowed%found_and_allowed_owner_or_admin Hdel.
  split; [|split].
  - unfold delete_file_by_id. unfold_monad. rewrite Hget, Hallowed. simpl.
    run_with Hdel. rewrite Hname.
    by destruct (storage_delete_file _ w2) as [[e|[]] w3].
  - destruct (upload_file_calls file uploader uuid4 st0) as (rest & Hcalls & Hforms).
    exists rest. split; [exact Hcalls|]. intros uid form Hin.
    by destruct (Hforms uid form Hin).
  - intros Heq. by apply (storage_key_neq_name uuid4 (basename (UploadFile.filename file))).
Qed.

End Deletion.

(** C6, witness: [alice] deletes her file with the registry down, with the
    storage down, and with both up. *)
Lemma delete_file_by_id_outcomes_witness :
  http_status (fst (delete_file_by_id "u1" Sample.alice
                      (InMemory.start (Sample.registry_down Sample.uploaded)))) = 400
  ∧ http_status (fst (delete_file_by_id "u1" Sample.alice
                        (InMemory.start (Sample.storage_down Sample.uploaded)))) = 400
  ∧ http_status (fst (delete_file_by_id "u1" Sample.alice
                        (InMemory.start Sample.uploaded))) = 200.
Proof.
  split; [|split].
  - destruct (delete_file_by_id_outcomes "u1" Sample.alice
                (InMemory.start (Sample.registry_down Sample.uploaded))
                Sample.passwd_record (Sample.registry_down Sample.uploaded))
      as (Hfail & _ & _); [vm_compute; reflexivity | by left |].
    rewrite (Hfail (Sample.registry_down Sample.uploaded));
      [reflexivity | vm_compute; reflexivity].
  - destruct (delete_file_by_id_outcomes "u1" Sample.alice
                (InMemory.start (Sample.storage_down Sample.uploaded))
                Sample.passwd_record (Sample.storage_down Sample.uploaded))
      as (_ & Hblob & _); [vm_compute; reflexivity | by left |].
    rewrite (Hblob (InMemory.set_registry (Sample.storage_down Sample.uploaded) [])
               (Exception "disk full")
               (InMemory.set_registry (Sample.storage_down Sample.uploaded) []));
      [reflexivity | vm_compute; reflexivity ..].
  - destruct (delete_file_by_id_outcomes "u1" Sample.alice
                (InMemory.start Sample.uploaded)
                Sample.passwd_record Sample.uploaded)
      as (_ & _ & Hok); [vm_compute; reflexivity | by left |].
    rewrite (Hok (InMemory.set_registry Sample.uploaded [])
               (InMemory.set_registry Sample.uploaded []));
      [reflexivity | vm_compute; reflexivity ..].
Defined.

(** C7, witness: the three outcomes, the last one on a registry with no
    file. *)
Lemma delete_all_files_outcomes_witness :
  http_status (fst (delete_all_files Sample.root
                      (InMemory.start (Sample.registry_down Sample.uploaded)))) = 400
  ∧ http_status (fst (delete_all_files Sample.root
                        (InMemory.start (Sample.storage_down Sample.uploaded)))) = 400
  ∧ fst (delete_all_files Sample.root (InMemory.start InMemory.empty))
    = inr (JSON {[ "message" := VStr "All files deleted successfully" ]}).
Proof.
  split; [|split].
  - destruct (delete_all_files_outcomes Sample.root
                (InMemory.start (Sample.registry_down Sample.uploaded)))
      as (Hfail & _ & _).
    rewrite (Hfail (Sample.registry_down Sample.uploaded));
      [reflexivity | vm_compute; reflexivity].
  - destruct (delete_all_files_outcomes Sample.root
                (InMemory.start (Sample.storage_down Sample.uploaded)))
      as (_ & Hblob & _).
    rewrite (Hblob (InMemory.set_registry (Sample.storage_down Sample.uploaded) [])
               (Exception "disk full")
               (InMemory.set_registry (Sample.storage_down Sample.uploaded) []));
      [reflexivity | vm_compute; reflexivity ..].
  - destruct (delete_all_files_outcomes Sample.root (InMemory.start InMemory.empty))
      as (_ & _ & Hok).
    rewrite (Hok InMemory.empty InMemory.empty);
      [reflexivity | vm_compute; reflexivity ..].
Defined.

(** C10, witness: [alice] deletes the record of her upload of
    [../../etc/passwd]; the storage is asked to delete [passwd], and the blob
    is under [u1_passwd]. *)
Lemma delete_file_by_id_passes_filename_witness :
  calls (snd (delete_file_by_id "u1" Sample.alice (InMemory.start Sample.uploaded)))
  = [Call_Files_get_file_by_id "u1";
     Call_Files_delete_file_by_id "u1";
     Call_Storage_delete_file "passwd"]
  ∧ "passwd" ≠ "u1_passwd".
Proof.
  destruct (delete_file_by_id_passes_filename Sample.passwd "u1" Sample.alice
              (InMemory.start InMemory.empty) Sample.alice
              (InMemory.start Sample.uploaded) Sample.passwd_record
              Sample.uploaded (InMemory.set_registry Sample.uploaded []))
    as (Hcalls & _ & Hneq);
    [reflexivity | vm_compute; reflexivity | by left | vm_compute; reflexivity |].
  split; [exact Hcalls | exact Hneq].
Defined.

(** ** Updating the content *)

Section ContentUpdate.
Context {W : Type} `{Collaborators W} `{Constants}.

Implicit Types (st : state W) (user : User.t) (f : FileModel.t).

(** C9: for an allowed caller, [update_file_data_content_by_id] calls the
    processor with the identifier and the caller's replacement content right
    after the lookup.  When the processor raises, nothing is raised to the
    caller: the answer is 200 with the value that the record found by the
    lookup holds under ["content"] of its [data], the stale content, or
    with the empty string when it holds none; the replacement content is
    not what is returned, and no collaborator is called after the
    processor. *)
Theorem update_content_processor_failure (id form_data : string) user st f (w1 : W) :
  files_get_file_by_id id (world st) = (inr (Some f), w1) →
  FileModel.user_id f = User.id user ∨ User.role user = "admin" →
  (∃ rest,
     calls (snd (update_file_data_content_by_id id form_data user st))
     = calls st ++ Call_Files_get_file_by_id id
                 :: Call_process_file (update_process_form id form_data) :: rest)
  ∧ ∀ e w2,
      run_process_file (update_process_form id form_data) w1 = (inl e, w2) →
      update_file_data_content_by_id id form_data user st
      = (inr (JSON {[ "content" :=
                        match FileModel.data f !! "content" with
                        | Some stale => stale
                        | None => VStr ""
                        end ]}),
         State w2 (calls st ++ [Call_Files_get_file_by_id id;
                                Call_process_file (update_process_form id form_data)]))
      ∧ http_status (fst (update_file_data_content_by_id id form_data user st)) = 200
      ∧ (∀ stale, FileModel.data f !! "content" = Some stale →
           fst (update_file_data_content_by_id id form_data user st)
           = inr (JSON {[ "content" := stale ]})).
Proof.
  intros Hget Hallowed%found_and_allowed_owner_or_admin.
  unfold update_file_data_content_by_id, update_process_form.
  unfold_monad. rewrite Hget, Hallowed. simpl.
  split.
  - destruct (run_process_file _ w1) as [[e|[]] w2]; simpl.
    { exists []. by rewrite <- app_assoc. }
    destruct (files_get_file_by_id id w2) as [[e|[fetched|]] w3]; simpl;
      eexists [_]; by rewrite <- !app_assoc.
  - intros e w2 Hproc. run_with Hproc. unfold get.
    split; [done|]. split; [done|]. by intros stale ->.
Qed.

End ContentUpdate.

(** C9, witness: [alice] sends ["new text"] for her file, whose content is
    ["old text"], while the processor is down; the answer holds
    ["old text"]. *)
Lemma update_content_processor_failure_witness :
  fst (update_file_data_content_by_id "u1" "new text" Sample.alice
         (InMemory.start (Sample.processor_down (Exception "no loader") processed)))
  = inr (JSON {[ "content" := VStr "old text" ]}).
Proof.
  set (w := Sample.processor_down (Exception "no loader") processed).
  destruct (update_content_processor_failure "u1" "new text" Sample.alice
              (InMemory.start w) processed_record w)
    as (_ & Hfail); [vm_compute; reflexivity | by left |].
  destruct (Hfail (Exception "no loader") w) as (_ & _ & Hstale);
    [vm_compute; reflexivity|].
  apply Hstale. vm_compute. reflexivity.
Defined.

(** ** Listing *)

(** C8: on the in-memory registry, [list_files] gives an admin every record
    of the registry, and gives any other caller the records whose [user_id]
    is the caller's identifier, all of them and no other, in the order of
    the registry; the registry is left as it was. *)
Theorem list_files_by_role (user : User.t) (st : state InMemory.world) :
  (User.role user = "admin" →
   fst (list_files user st) = inr (Models (InMemory.registry (world st))))
  ∧ (User.role user ≠ "admin" →
     ∃ files,
       fst (list_files user st) = inr (Models files)
       ∧ files = List.filter (InMemory.owned_by (User.id user))
                   (InMemory.registry (world st))
       ∧ ∀ f, f ∈ files ↔
              f ∈ InMemory.registry (world st) ∧ FileModel.user_id f = User.id user)
  ∧ world (snd (list_files user st)) = world st.
Proof.
  unfold list_files. split; [|split].
  - intros Hadmin. by rewrite (bool_decide_eq_true_2 _ Hadmin).
  - intros Huser. rewrite (bool_decide_eq_false_2 _ Huser).
    eexists. split; [reflexivity|]. split; [reflexivity|].
    intros f. rewrite !list_elem_of_In, filter_In.
    unfold InMemory.owned_by. by rewrite bool_decide_eq_true.
  - by destruct (bool_decide (User.role user = "admin")).
Qed.

(** ** The storage key *)

Section StorageKey.
Context {W : Type} `{Collaborators W} `{Constants}.


End StorageKey.

(** * Further properties *)

(** ** Upload: the remaining outcomes *)

Section UploadOutcomes.
Context {W : Type} `{Collaborators W} `{Constants}.

Implicit Types (st : state W) (user : User.t) (file : UploadFile.t).

(** X1: when the storage, the registry and the processor all succeed and the
    record is found again, [upload_file] answers 200 with the record as
    fetched after processing, not the one the insert returned; the payload
    has no ["error"] key, and the handler has called the storage, the
    insert, the processor and the lookup, in that order. *)
Theorem upload_file_success file user uuid4 st contents file_path w1 file_item
    w2 w3 fetched w4 :
  storage_upload_file (UploadFile.file file) (upload_key file uuid4) (world st)
    = (inr (contents, file_path), w1) →
  files_insert_new_file (User.id user) (upload_form file uuid4 contents file_path) w1
    = (inr (Some file_item), w2) →
  run_process_file (upload_process_form uuid4) w2 = (inr (), w3) →
  files_get_file_by_id uuid4 w3 = (inr (Some fetched), w4) →
  upload_file file user uuid4 st
  = (inr (Model (model_dump fetched)),
     State w4 (calls st ++ upload_calls file user uuid4 contents file_path))
  ∧ http_status (fst (upload_file file user uuid4 st)) = 200
  ∧ model_dump fetched !! "error" = None.
Proof.
  unfold upload_calls, upload_key, storage_key, upload_form, upload_process_form.
  intros Hup Hins Hproc Hget.
  assert (upload_file file user uuid4 st
          = (inr (Model (model_dump fetched)),
             State w4 (calls st ++
               [Call_Storage_upload_file (UploadFile.file file)
                  (uuid4 +:+ "_" +:+ basename (UploadFile.filename file));
                Call_Files_insert_new_file (User.id user)
                  (upload_form file uuid4 contents file_path);
                Call_process_file (upload_process_form uuid4);
                Call_Files_get_file_by_id uuid4]))) as Hrun.
  { unfold upload_file, upload_form, upload_process_form. unfold_monad.
    run_with Hup. run_with Hins. run_with Hproc. by run_with Hget. }
  rewrite Hrun. split; [done|]. split; [done|]. apply model_dump_no_error.
Qed.

(** X3: when the processor succeeds and the lookup that follows finds no
    record, [file_item.model_dump()] fails inside the [try], the [except]
    clause fails in turn at [file_item.id], and the outer clause answers 400
    with the text of that [AttributeError]. *)
Theorem upload_file_record_vanished file user uuid4 st contents file_path w1
    file_item w2 w3 w4 :
  storage_upload_file (UploadFile.file file) (upload_key file uuid4) (world st)
    = (inr (contents, file_path), w1) →
  files_insert_new_file (User.id user) (upload_form file uuid4 contents file_path) w1
    = (inr (Some file_item), w2) →
  run_process_file (upload_process_form uuid4) w2 = (inr (), w3) →
  files_get_file_by_id uuid4 w3 = (inr None, w4) →
  upload_file file user uuid4 st
  = (inl (unexpected_error (AttributeError "id")),
     State w4 (calls st ++ upload_calls file user uuid4 contents file_path))
  ∧ http_status (fst (upload_file file user uuid4 st)) = 400.
Proof.
  unfold upload_calls, upload_key, storage_key, upload_form, upload_process_form.
  intros Hup Hins Hproc Hget.
  assert (upload_file file user uuid4 st
          = (inl (unexpected_error (AttributeError "id")),
             State w4 (calls st ++
               [Call_Storage_upload_file (UploadFile.file file)
                  (uuid4 +:+ "_" +:+ basename (UploadFile.filename file));
                Call_Files_insert_new_file (User.id user)
                  (upload_form file uuid4 contents file_path);
                Call_process_file (upload_process_form uuid4);
                Call_Files_get_file_by_id uuid4]))) as Hrun.
  { unfold upload_file, upload_file_process_error, upload_form, upload_process_form.
    unfold_monad. run_with Hup. run_with Hins. run_with Hproc. by run_with Hget. }
  rewrite Hrun. by split.
Qed.

(** X4: when the processor succeeds and the lookup that follows raises, the
    exception is handled like a failure of the processor: the answer is 200
    with the inserted record and the message of the exception under
    ["error"]. *)
Theorem upload_file_lookup_raises file user uuid4 st contents file_path w1
    file_item w2 w3 e w4 :
  storage_upload_file (UploadFile.file file) (upload_key file uuid4) (world st)
    = (inr (contents, file_path), w1) →
  files_insert_new_file (User.id user) (upload_form file uuid4 contents file_path) w1
    = (inr (Some file_item), w2) →
  run_process_file (upload_process_form uuid4) w2 = (inr (), w3) →
  files_get_file_by_id uuid4 w3 = (inl e, w4) →
  upload_file file user uuid4 st
  = (inr (Model (<["error" := VStr (error_message e)]> (model_dump file_item))),
     State w4 (calls st ++ upload_calls file user uuid4 contents file_path))
  ∧ http_status (fst (upload_file file user uuid4 st)) = 200.
Proof.
  unfold upload_calls, upload_key, storage_key, upload_form, upload_process_form.
  intros Hup Hins Hproc Hget.
  assert (upload_file file user uuid4 st
          = (inr (Model (<["error" := VStr (error_message e)]> (model_dump file_item))),
             State w4 (calls st ++
               [Call_Storage_upload_file (UploadFile.file file)
                  (uuid4 +:+ "_" +:+ basename (UploadFile.filename file));
                Call_Files_insert_new_file (User.id user)
                  (upload_form file uuid4 contents file_path);
                Call_process_file (upload_process_form uuid4);
                Call_Files_get_file_by_id uuid4]))) as Hrun.
  { unfold upload_file, upload_file_process_error, upload_form, upload_process_form.
    unfold_monad. run_with Hup. run_with Hins. run_with Hproc. by run_with Hget. }
  rewrite Hrun. by split.
Qed.

(** X5: an insert that returns [None] instead of raising is answered like
    an insert that raises: [file_item.id] fails inside the [try] around the
    insert, the answer is the 400 that wraps "Database record creation
    failed", and the processor is not called. *)
Theorem upload_file_insert_returns_none file user uuid4 st contents file_path
    w1 w2 :
  storage_upload_file (UploadFile.file file) (upload_key file uuid4) (world st)
    = (inr (contents, file_path), w1) →
  files_insert_new_file (User.id user) (upload_form file uuid4 contents file_path) w1
    = (inr None, w2) →
  fst (upload_file file user uuid4 st)
    = inl (unexpected_error database_record_creation_failed)
  ∧ http_status (fst (upload_file file user uuid4 st)) = 400
  ∧ calls (snd (upload_file file user uuid4 st))
    = calls st ++
      [Call_Storage_upload_file (UploadFile.file file) (upload_key file uuid4);
       Call_Files_insert_new_file (User.id user)
         (upload_form file uuid4 contents file_path)].
Proof.
  intros Hup Hins.
  rewrite (upload_file_insert_none _ _ _ _ _ _ _ _ Hup Hins). repeat split.
Qed.

(** X2: whatever the collaborators return or raise, [upload_file] answers
    with a record or with one of three [HTTPException 400]: the wrapped
    storage failure, the wrapped registry failure, or the wrapped
    [AttributeError] of a record that is gone after processing.  So the
    status is 200 or 400, never 500, and the branch that raises "Error
    uploading file" is never taken. *)
Theorem upload_file_answers file user uuid4 st :
  upload_answer (fst (upload_file file user uuid4 st))
  ∧ (http_status (fst (upload_file file user uuid4 st)) = 200
     ∨ http_status (fst (upload_file file user uuid4 st)) = 400).
Proof.
  assert (upload_answer (fst (upload_file file user uuid4 st))) as Hans.
  { unfold upload_file, upload_file_process_error. unfold_monad.
    destruct (storage_upload_file _ _ (world st)) as [[e|[contents path]] w1]; simpl;
      [constructor|].
    destruct (files_insert_new_file _ _ w1) as [[e|[file_item|]] w2]; simpl;
      [constructor| |constructor].
    destruct (run_process_file _ w2) as [[e|[]] w3]; simpl; [constructor|].
    destruct (files_get_file_by_id _ w3) as [[e|[fetched|]] w4]; simpl; constructor. }
  split; [exact Hans|].
  destruct Hans; [left | right | right | right]; reflexivity.
Qed.

(** X6: [upload_file] makes at most four calls and none of them asks for a
    deletion: a blob written before the insert or the processor failed is
    left in the storage, and so is the record of a file that could not be
    processed. *)
Theorem upload_file_never_deletes file user uuid4 st :
  ∃ new,
    calls (snd (upload_file file user uuid4 st)) = calls st ++ new
    ∧ (length new ≤ 4)%nat
    ∧ ∀ c, c ∈ new → is_delete c = false.
Proof.
  unfold upload_file, upload_file_process_error. unfold_monad.
  destruct (storage_upload_file _ _ (world st)) as [[e|[contents path]] w1]; simpl.
  { eexists [_]. split; [done|]. split; [simpl; lia|].
    intros c [->|[]%elem_of_nil]%elem_of_cons. done. }
  destruct (files_insert_new_file _ _ w1) as [[e|[file_item|]] w2]; simpl.
  1, 3: eexists [_; _]; rewrite <- app_assoc; split; [done|]; split; [simpl; lia|];
        intros c [->|[->|[]%elem_of_nil]%elem_of_cons]%elem_of_cons; done.
  destruct (run_process_file _ w2) as [[e|[]] w3]; simpl.
  { eexists [_; _; _]. rewrite <- !app_assoc. split; [done|]. split; [simpl; lia|].
    intros c [->|[->|[->|[]%elem_of_nil]%elem_of_cons]%elem_of_cons]%elem_of_cons; done. }
  destruct (files_get_file_by_id _ w3) as [[e|[fetched|]] w4]; simpl;
    (eexists [_; _; _; _]; rewrite <- !app_assoc; split; [done|]; split; [simpl; lia|];
     intros c [->|[->|[->|[->|[]%elem_of_nil]%elem_of_cons]%elem_of_cons]%elem_of_cons]%elem_of_cons;
     done).
Qed.

End UploadOutcomes.

(** X1, witness: [alice] uploads [../../etc/passwd] to the empty in-memory
    world. *)
Lemma upload_file_success_witness :
  http_status (fst (upload_file Sample.passwd Sample.alice "u1"
                      (InMemory.start InMemory.empty))) = 200.
Proof.
  eapply (upload_file_success Sample.passwd Sample.alice "u1"
            (InMemory.start InMemory.empty)).
  - vm_compute. reflexivity.
  - vm_compute. reflexivity.
  - vm_compute. reflexivity.
  - vm_compute. reflexivity.
Defined.

(** X3, witness: the lookup after the processor finds nothing. *)
Lemma upload_file_record_vanished_witness :
  http_status
    (fst (@upload_file nat
            (Scripted.collaborators
               (Scripted.with_lookup (λ _, inr None)
                  (Scripted.fine Sample.passwd_record)))
            InMemory.constants Sample.passwd Sample.alice "u1" Scripted.start))
  = 400.
Proof.
  eapply (@upload_file_record_vanished nat
            (Scripted.collaborators
               (Scripted.with_lookup (λ _, inr None)
                  (Scripted.fine Sample.passwd_record)))
            InMemory.constants Sample.passwd Sample.alice "u1" Scripted.start).
  - vm_compute. reflexivity.
  - vm_compute. reflexivity.
  - vm_compute. reflexivity.
  - vm_compute. reflexivity.
Defined.

(** X4, witness: the lookup after the processor raises. *)
Lemma upload_file_lookup_raises_witness :
  http_status
    (fst (@upload_file nat
            (Scripted.collaborators
               (Scripted.with_lookup (λ _, inl Scripted.down)
                  (Scripted.fine Sample.passwd_record)))
            InMemory.constants Sample.passwd Sample.alice "u1" Scripted.start))
  = 200.
Proof.
  eapply (@upload_file_lookup_raises nat
            (Scripted.collaborators
               (Scripted.with_lookup (λ _, inl Scripted.down)
                  (Scripted.fine Sample.passwd_record)))
            InMemory.constants Sample.passwd Sample.alice "u1" Scripted.start).
  - vm_compute. reflexivity.
  - vm_compute. reflexivity.
  - vm_compute. reflexivity.
  - vm_compute. reflexivity.
Defined.

(** X5, witness: the insert returns [None]. *)
Lemma upload_file_insert_returns_none_witness :
  http_status
    (fst (@upload_file nat
            (Scripted.collaborators
               (Scripted.with_insert (inr None)
                  (Scripted.fine Sample.passwd_record)))
            InMemory.constants Sample.passwd Sample.alice "u1" Scripted.start))
  = 400.
Proof.
  eapply (@upload_file_insert_returns_none nat
            (Scripted.collaborators
               (Scripted.with_insert (inr None)
                  (Scripted.fine Sample.passwd_record)))
            InMemory.constants Sample.passwd Sample.alice "u1" Scripted.start).
  - vm_compute. reflexivity.
  - vm_compute. reflexivity.
Defined.

(** ** The identifier-addressed routes: the remaining outcomes *)

Section Routes.
Context {W : Type} `{Collaborators W} `{Constants}.

Implicit Types (st : state W) (user : User.t) (f : FileModel.t).

Lemma found_and_allowed_Some (o : option FileModel.t) user f :
  found_and_allowed o user = Some f →
  o = Some f ∧ (FileModel.user_id f = User.id user ∨ User.role user = "admin").
Proof.
  unfold found_and_allowed. destruct o as [g|]; [|done].
  destruct (bool_decide (FileModel.user_id g = User.id user)) eqn:Howner; simpl.
  - intros [= ->]. split; [done|]. left. by apply bool_decide_eq_true in Howner.
  - destruct (bool_decide (User.role user = "admin")) eqn:Hadmin; [|done].
    intros [= ->]. split; [done|]. right. by apply bool_decide_eq_true in Hadmin.
Qed.

(** X7: once the lookup has returned, [get_file_by_id] answers 200 exactly
    when a record was found that the caller owns or the caller's role is
    ["admin"]; the body is then that record, and in every other case the
    status is 404. *)
Theorem get_file_by_id_status (id : string) user st (o : option FileModel.t)
    (w1 : W) :
  files_get_file_by_id id (world st) = (inr o, w1) →
  (http_status (fst (get_file_by_id id user st)) = 200
   ↔ ∃ f, o = Some f
          ∧ (FileModel.user_id f = User.id user ∨ User.role user = "admin"))
  ∧ (∀ f, o = Some f →
          FileModel.user_id f = User.id user ∨ User.role user = "admin" →
          fst (get_file_by_id id user st) = inr (Model (model_dump f)))
  ∧ (http_status (fst (get_file_by_id id user st)) = 200
     ∨ http_status (fst (get_file_by_id id user st)) = 404).
Proof.
  intros Hget. unfold get_file_by_id.
  unfold Files_get_file_by_id, invoke, mbind, M_bind. rewrite Hget.
  split; [|split].
  - destruct (found_and_allowed o user) as [f|] eqn:Hallowed; simpl.
    + apply found_and_allowed_Some in Hallowed. split; [|done]. intros _. by exists f.
    + split; [done|]. intros (f & -> & Hok).
      by rewrite (found_and_allowed_owner_or_admin f user Hok) in Hallowed.
  - intros f -> Hok. by rewrite (found_and_allowed_owner_or_admin f user Hok).
  - destruct (found_and_allowed o user); [by left | by right].
Qed.

(** X9: when the lookup itself raises, every identifier-addressed handler
    lets that exception through unchanged and calls nothing else: the
    lookup is outside every [try]. *)
Theorem lookup_exception_propagates (route : id_route) (id : string) user st
    (e : exn) (w1 : W) :
  files_get_file_by_id id (world st) = (inl e, w1) →
  serve route id user st
  = (inl e, State w1 (calls st ++ [Call_Files_get_file_by_id id])).
Proof.
  intros Hget.
  destruct route; unfold serve, get_file_by_id, get_file_data_content_by_id,
    update_file_data_content_by_id, get_file_content_by_id,
    get_html_file_content_by_id, get_file_content_by_id_file_name,
    delete_file_by_id;
    unfold Files_get_file_by_id, invoke, mbind, M_bind;
    by rewrite Hget.
Qed.

(** X8: the handlers of the [GET] routes only look up and resolve: whatever
    the collaborators return or raise, none of their calls is an insert, a
    deletion, an upload or a run of the processor. *)
Theorem get_routes_never_write (route : id_route) (id : string) user st :
  is_get_route route = true →
  ∃ new,
    calls (snd (serve route id user st)) = calls st ++ new
    ∧ ∀ c, c ∈ new → is_write c = false.
Proof.
  intros Hroute.
  destruct route; try discriminate Hroute; clear Hroute;
    unfold serve, get_file_by_id, get_file_data_content_by_id,
      get_file_content_by_id, get_html_file_content_by_id,
      get_file_content_by_id_file_name;
    unfold_monad;
    destruct (files_get_file_by_id id (world st)) as [[e|o] w1]; simpl;
    try (eexists [_]; split; [done|];
         intros c [->|[]%elem_of_nil]%elem_of_cons; done);
    destruct (found_and_allowed o user) as [f|]; simpl;
    try (eexists [_]; split; [done|];
         intros c [->|[]%elem_of_nil]%elem_of_cons; done).
  - destruct (storage_get_file (FileModel.path f) w1) as [[e|p] w2]; simpl;
      [|destruct (path_is_file p w2); simpl;
        [unfold new_FileResponse, raise, mret, M_ret;
         destruct (init_headers _); simpl|]];
      (eexists [_; _]; rewrite <- app_assoc; split; [done|];
       intros c [->|[->|[]%elem_of_nil]%elem_of_cons]%elem_of_cons; done).
  - destruct (storage_get_file (FileModel.path f) w1) as [[e|p] w2]; simpl;
      [|destruct (path_is_file p w2); simpl];
      (eexists [_; _]; rewrite <- app_assoc; split; [done|];
       intros c [->|[->|[]%elem_of_nil]%elem_of_cons]%elem_of_cons; done).
  - destruct (truthy_path (FileModel.path f)); simpl.
    + destruct (storage_get_file (FileModel.path f) w1) as [[e|p] w2]; simpl;
        [|destruct (path_is_file p w2); simpl;
          [unfold new_FileResponse, raise, mret, M_ret;
           destruct (init_headers _); simpl|]];
        (eexists [_; _]; rewrite <- app_assoc; split; [done|];
         intros c [->|[->|[]%elem_of_nil]%elem_of_cons]%elem_of_cons; done).
    + unfold new_StreamingResponse, raise, mret, M_ret.
      destruct (init_headers _); simpl;
        (eexists [_]; split; [done|];
         intros c [->|[]%elem_of_nil]%elem_of_cons; done).
Qed.

End Routes.

Section RouteOutcomes.
Context {W : Type} `{Collaborators W} `{Constants}.

Implicit Types (st : state W) (user : User.t) (f : FileModel.t).

(** X10: for an allowed caller whose replacement content the processor
    accepted, [update_file_data_content_by_id] looks the record up again.
    A record found gives 200 with its content, the fresh one; no record
    gives the [AttributeError] of [file.data] outside every [try], a 500;
    a lookup that raises is swallowed like a processor failure and gives 200
    with the content found by the first lookup. *)
Theorem update_content_second_lookup (id form_data : string) user st f
    (w1 w2 : W) :
  files_get_file_by_id id (world st) = (inr (Some f), w1) →
  FileModel.user_id f = User.id user ∨ User.role user = "admin" →
  run_process_file (update_process_form id form_data) w1 = (inr (), w2) →
  (∀ fetched w3,
     files_get_file_by_id id w2 = (inr (Some fetched), w3) →
     fst (update_file_data_content_by_id id form_data user st)
     = inr (JSON {[ "content" := default (VStr "") (FileModel.data fetched !! "content") ]}))
  ∧ (∀ w3,
       files_get_file_by_id id w2 = (inr None, w3) →
       fst (update_file_data_content_by_id id form_data user st)
       = inl (AttributeError "data")
       ∧ http_status (fst (update_file_data_content_by_id id form_data user st)) = 500)
  ∧ (∀ e w3,
       files_get_file_by_id id w2 = (inl e, w3) →
       fst (update_file_data_content_by_id id form_data user st)
       = inr (JSON {[ "content" := default (VStr "") (FileModel.data f !! "content") ]})).
Proof.
  intros Hget Hallowed%found_and_allowed_owner_or_admin Hproc.
  unfold update_file_data_content_by_id, update_process_form in *.
  unfold_monad. rewrite Hget, Hallowed. simpl. run_with Hproc.
  split; [|split].
  - intros fetched w3 Hagain. run_with Hagain. unfold get.
    by destruct (FileModel.data fetched !! "content").
  - intros w3 Hagain. by run_with Hagain.
  - intros e w3 Hagain. run_with Hagain. unfold get.
    by destruct (FileModel.data f !! "content").
Qed.

(** X11: for an allowed caller, when [Storage.get_file] raises, the routes
    [/{id}/content] and [/{id}/content/html] answer 400 "Error getting file
    content", while [/{id}/content/{file_name}], which has no [try], lets
    the storage's own exception through. *)
Theorem storage_get_file_raises (id : string) user st f (w1 : W) (e : exn) (w2 : W) :
  files_get_file_by_id id (world st) = (inr (Some f), w1) →
  FileModel.user_id f = User.id user ∨ User.role user = "admin" →
  storage_get_file (FileModel.path f) w1 = (inl e, w2) →
  fst (get_file_content_by_id id user st)
    = inl (HTTPException status.HTTP_400_BAD_REQUEST
             (DEFAULT "Error getting file content"))
  ∧ fst (get_html_file_content_by_id id user st)
    = inl (HTTPException status.HTTP_400_BAD_REQUEST
             (DEFAULT "Error getting file content"))
  ∧ (truthy_path (FileModel.path f) = true →
     fst (get_file_content_by_id_file_name id user st) = inl e).
Proof.
  intros Hget Hallowed%found_and_allowed_owner_or_admin Hpath.
  split; [|split].
  - unfold get_file_content_by_id. unfold_monad.
    rewrite Hget, Hallowed. simpl. by run_with Hpath.
  - unfold get_html_file_content_by_id. unfold_monad.
    rewrite Hget, Hallowed. simpl. by run_with Hpath.
  - intros Htruthy. unfold get_file_content_by_id_file_name.
    unfold Files_get_file_by_id, invoke, mbind, M_bind.
    rewrite Hget, Hallowed, Htruthy.
    unfold Storage_get_file, invoke. simpl. by rewrite Hpath.
Qed.

(** X13: [/{id}/content/html] for an allowed caller, once the storage has
    resolved the path: an existing file is sent without any header of the
    handler's own; for a path that is no file the 404 raised inside the
    [try] is caught and the answer is a 400, as on [/{id}/content]. *)
Theorem get_html_file_content_by_id_resolved (id : string) user st f (w1 : W)
    (file_path : string) (w2 : W) :
  files_get_file_by_id id (world st) = (inr (Some f), w1) →
  FileModel.user_id f = User.id user ∨ User.role user = "admin" →
  storage_get_file (FileModel.path f) w1 = (inr file_path, w2) →
  fst (get_html_file_content_by_id id user st)
  = if path_is_file file_path w2
    then inr (FileResponse file_path ∅)
    else inl (HTTPException status.HTTP_400_BAD_REQUEST
                (DEFAULT "Error getting file content")).
Proof.
  intros Hget Hallowed%found_and_allowed_owner_or_admin Hpath.
  unfold get_html_file_content_by_id. unfold_monad.
  rewrite Hget, Hallowed. simpl. run_with Hpath.
  by destruct (path_is_file file_path w2).
Qed.

(** X14: [/{id}/content/{file_name}] for an allowed caller and a record
    whose path is [None] or empty: the storage is not called.  When the
    record's filename can be encoded as latin-1, the answer is a 200
    [text/plain] stream over the value under ["content"] of the record's
    [content], or over the empty string when the key is missing, with the
    filename in an attachment header; the value is encoded only when the
    response is streamed, so one that is no string still gives the 200.
    When the filename cannot be encoded, the [UnicodeEncodeError] of the
    header leaves the handler, a 500. *)
Theorem inline_content_fallback (id : string) user st f (w1 : W) :
  files_get_file_by_id id (world st) = (inr (Some f), w1) →
  FileModel.user_id f = User.id user ∨ User.role user = "admin" →
  FileModel.path f = None ∨ FileModel.path f = Some "" →
  (latin1_encodable (FileModel.filename f) = true →
   get_file_content_by_id_file_name id user st
   = (inr (StreamingResponse
             (default (VStr "") (FileModel.content f !! "content")) "text/plain"
             {[ "Content-Disposition" :=
                  "attachment; filename=" +:+ FileModel.filename f ]}),
      State w1 (calls st ++ [Call_Files_get_file_by_id id])))
  ∧ (latin1_encodable (FileModel.filename f) = false →
     get_file_content_by_id_file_name id user st
     = (inl UnicodeEncodeError,
        State w1 (calls st ++ [Call_Files_get_file_by_id id]))
     ∧ http_status (fst (get_file_content_by_id_file_name id user st)) = 500)
  ∧ (∀ text, generator (VStr text) = inr text).
Proof.
  intros Hget Hallowed%found_and_allowed_owner_or_admin Hpath.
  assert (latin1_encodable ("attachment; filename=" +:+ FileModel.filename f)
          = latin1_encodable (FileModel.filename f)) as Hheader
    by (by rewrite latin1_encodable_app).
  assert (truthy_path (FileModel.path f) = false) as Hfalsy
    by (destruct Hpath as [->| ->]; reflexivity).
  assert (get_file_content_by_id_file_name id user st
          = new_StreamingResponse
              (default (VStr "") (FileModel.content f !! "content")) "text/plain"
              {[ "Content-Disposition" :=
                   "attachment; filename=" +:+ FileModel.filename f ]}
              (State w1 (calls st ++ [Call_Files_get_file_by_id id]))) as Hrun.
  { unfold get_file_content_by_id_file_name.
    unfold Files_get_file_by_id, invoke, mbind, M_bind.
    rewrite Hget, Hallowed, Hfalsy. unfold get.
    by destruct (FileModel.content f !! "content"). }
  rewrite Hrun, new_StreamingResponse_singleton by reflexivity.
  rewrite Hheader. clear Hrun Hheader.
  split; [|split].
  - intros Hname. rewrite Hname. reflexivity.
  - intros Hname. rewrite Hname. split; reflexivity.
  - reflexivity.
Qed.

(** X12: the download of a record that carries the [meta] [upload_file]
    built, once the resolved path is a file.  When the sanitized name of the
    upload can be encoded as latin-1, [/{id}/content] sends the file with
    the header [attachment; filename="name"], [name] being that sanitized
    name; when it cannot, the [UnicodeEncodeError] of the header is caught
    by [except Exception] and the answer is a 400. *)
Theorem download_names_sanitized_upload (file : UploadFile.t)
    (uuid4 : string) (contents : bytes) (path : string)
    (id : string) user st f (w1 : W) (file_path : string) (w2 : W) :
  FileModel.meta f = FileForm.meta (upload_form file uuid4 contents path) →
  files_get_file_by_id id (world st) = (inr (Some f), w1) →
  FileModel.user_id f = User.id user ∨ User.role user = "admin" →
  storage_get_file (FileModel.path f) w1 = (inr file_path, w2) →
  path_is_file file_path w2 = true →
  (latin1_encodable (basename (UploadFile.filename file)) = true →
   fst (get_file_content_by_id id user st)
   = inr (FileResponse file_path
            {[ "Content-Disposition" :=
                 "attachment; filename=" +:+ dquote
                   +:+ basename (UploadFile.filename file) +:+ dquote ]}))
  ∧ (latin1_encodable (basename (UploadFile.filename file)) = false →
     fst (get_file_content_by_id id user st)
     = inl (HTTPException status.HTTP_400_BAD_REQUEST
              (DEFAULT "Error getting file content"))).
Proof.
  intros Hmeta Hget Hallowed Hpath Hfile.
  rewrite (get_file_content_by_id_resolved id user st f w1 file_path w2 Hget Hallowed Hpath).
  rewrite Hfile.
  assert (content_disposition f
          = "attachment; filename=" +:+ dquote
              +:+ basename (UploadFile.filename file) +:+ dquote) as ->.
  { unfold content_disposition, get. rewrite Hmeta.
    unfold upload_form. simpl. by rewrite lookup_insert_eq. }
  rewrite !latin1_encodable_app.
  change (latin1_encodable "attachment; filename=") with true.
  change (latin1_encodable dquote) with true.
  rewrite andb_true_r. simpl.
  split; intros Hname; rewrite Hname; reflexivity.
Qed.

(** X15: for an allowed caller, when the registry's delete raises instead of
    reporting failure, [delete_file_by_id] lets the exception through
    unchanged, the call being outside the [try], and the storage is not
    called. *)
Theorem delete_file_by_id_registry_raises (id : string) user st f (w1 : W)
    (e : exn) (w2 : W) :
  files_get_file_by_id id (world st) = (inr (Some f), w1) →
  FileModel.user_id f = User.id user ∨ User.role user = "admin" →
  files_delete_file_by_id id w1 = (inl e, w2) →
  delete_file_by_id id user st
  = (inl e, State w2 (calls st ++ [Call_Files_get_file_by_id id;
                                   Call_Files_delete_file_by_id id])).
Proof.
  intros Hget Hallowed%found_and_allowed_owner_or_admin Hdel.
  unfold delete_file_by_id. unfold_monad. rewrite Hget, Hallowed. simpl.
  by run_with Hdel.
Qed.

(** X16: when the registry's bulk delete raises, [delete_all_files] lets the
    exception through unchanged and the storage is not called. *)
Theorem delete_all_files_registry_raises user st (e : exn) (w1 : W) :
  files_delete_all_files (world st) = (inl e, w1) →
  delete_all_files user st
  = (inl e, State w1 (calls st ++ [Call_Files_delete_all_files])).
Proof.
  intros Hdel. unfold delete_all_files. unfold_monad. by run_with Hdel.
Qed.

End RouteOutcomes.

(** X7, witness: [alice] reads her own record. *)
Lemma get_file_by_id_status_witness :
  fst (get_file_by_id "u1" Sample.alice (InMemory.start Sample.uploaded))
  = inr (Model (model_dump Sample.passwd_record)).
Proof.
  destruct (get_file_by_id_status "u1" Sample.alice (InMemory.start Sample.uploaded)
              (Some Sample.passwd_record) Sample.uploaded)
    as (_ & Hbody & _); [vm_compute; reflexivity|].
  apply Hbody; [reflexivity | by left].
Defined.

(** X8, witness: the download route on the in-memory world. *)
Lemma get_routes_never_write_witness :
  ∃ new,
    calls (snd (serve GET_id_content "u1" Sample.alice (InMemory.start Sample.uploaded)))
    = [] ++ new
    ∧ ∀ c, c ∈ new → is_write c = false.
Proof.
  apply (get_routes_never_write GET_id_content "u1" Sample.alice
           (InMemory.start Sample.uploaded)).
  reflexivity.
Defined.

(** X9, witness: the registry refuses the connection during a delete. *)
Lemma lookup_exception_propagates_witness :
  @serve nat
    (Scripted.collaborators
       (Scripted.with_lookup (λ _, inl Scripted.down)
          (Scripted.fine Sample.passwd_record)))
    InMemory.constants DELETE_id "u1" Sample.alice Scripted.start
  = (inl Scripted.down, State 1%nat [Call_Files_get_file_by_id "u1"]).
Proof.
  apply (@lookup_exception_propagates nat
           (Scripted.collaborators
              (Scripted.with_lookup (λ _, inl Scripted.down)
                 (Scripted.fine Sample.passwd_record)))
           InMemory.constants DELETE_id "u1" Sample.alice Scripted.start
           Scripted.down 1%nat).
  reflexivity.
Defined.

(** X10, witness: the record is gone at the second lookup; and the second
    lookup finds the record with the content ["old text"]. *)
Lemma update_content_second_lookup_witness :
  http_status
    (fst (@update_file_data_content_by_id nat
            (Scripted.collaborators
               (Scripted.with_lookup
                  (Scripted.first_then (inr (Some Sample.passwd_record)) (inr None))
                  (Scripted.fine Sample.passwd_record)))
            InMemory.constants "u1" "new text" Sample.alice Scripted.start))
  = 500
  ∧ fst (@update_file_data_content_by_id nat
           (Scripted.collaborators
              (Scripted.with_lookup
                 (Scripted.first_then (inr (Some Sample.passwd_record))
                    (inr (Some processed_record)))
                 (Scripted.fine Sample.passwd_record)))
           InMemory.constants "u1" "old text" Sample.alice Scripted.start)
    = inr (JSON {[ "content" := VStr "old text" ]}).
Proof.
  split.
  - destruct (@update_content_second_lookup nat
                (Scripted.collaborators
                   (Scripted.with_lookup
                      (Scripted.first_then (inr (Some Sample.passwd_record)) (inr None))
                      (Scripted.fine Sample.passwd_record)))
                InMemory.constants "u1" "new text" Sample.alice Scripted.start
                Sample.passwd_record 1%nat 1%nat)
      as (_ & Hgone & _); [reflexivity | by left | reflexivity |].
    destruct (Hgone 2%nat) as (_ & Hstatus); [reflexivity | exact Hstatus].
  - destruct (@update_content_second_lookup nat
                (Scripted.collaborators
                   (Scripted.with_lookup
                      (Scripted.first_then (inr (Some Sample.passwd_record))
                         (inr (Some processed_record)))
                      (Scripted.fine Sample.passwd_record)))
                InMemory.constants "u1" "old text" Sample.alice Scripted.start
                Sample.passwd_record 1%nat 1%nat)
      as (Hfound & _); [reflexivity | by left | reflexivity |].
    rewrite (Hfound processed_record 2%nat); [vm_compute; reflexivity | reflexivity].
Defined.

(** X11, witness: the storage refuses the connection. *)
Lemma storage_get_file_raises_witness :
  fst (@get_file_content_by_id_file_name nat
         (Scripted.collaborators
            (Scripted.with_resolve (inl Scripted.down)
               (Scripted.fine Sample.passwd_record)))
         InMemory.constants "u1" Sample.alice Scripted.start)
  = inl Scripted.down.
Proof.
  destruct (@storage_get_file_raises nat
              (Scripted.collaborators
                 (Scripted.with_resolve (inl Scripted.down)
                    (Scripted.fine Sample.passwd_record)))
              InMemory.constants "u1" Sample.alice Scripted.start
              Sample.passwd_record 1%nat Scripted.down 1%nat)
    as (_ & _ & Hthrough); [reflexivity | by left | reflexivity |].
  apply Hthrough. reflexivity.
Defined.

(** X12, witness: [alice] downloads her upload of [../../etc/passwd], and
    her upload of a file whose name latin-1 cannot encode. *)
Lemma download_names_sanitized_upload_witness :
  fst (get_file_content_by_id "u1" Sample.alice (InMemory.start Sample.uploaded))
  = inr (FileResponse "uploads/u1_passwd"
           {[ "Content-Disposition" :=
                "attachment; filename=" +:+ dquote +:+ "passwd" +:+ dquote ]})
  ∧ http_status (fst (get_file_content_by_id "u2" Sample.alice
                        (InMemory.start nihon_uploaded))) = 400.
Proof.
  split.
  - destruct (download_names_sanitized_upload Sample.passwd "u1" "root:x:0:0"
                "uploads/u1_passwd" "u1" Sample.alice (InMemory.start Sample.uploaded)
                Sample.passwd_record Sample.uploaded "uploads/u1_passwd" Sample.uploaded)
      as (Hsent & _);
      [vm_compute; reflexivity | vm_compute; reflexivity | by left
      | vm_compute; reflexivity | vm_compute; reflexivity |].
    apply Hsent. reflexivity.
  - destruct (download_names_sanitized_upload nihon "u2" "ab"
                "uploads/u2_日本.txt" "u2" Sample.alice (InMemory.start nihon_uploaded)
                nihon_record nihon_uploaded "uploads/u2_日本.txt" nihon_uploaded)
      as (_ & Hrefused);
      [vm_compute; reflexivity | vm_compute; reflexivity | by left
      | vm_compute; reflexivity | vm_compute; reflexivity |].
    rewrite Hrefused; reflexivity.
Defined.

(** X13, witness: the blob of the record is gone. *)
Lemma get_html_file_content_by_id_resolved_witness :
  http_status (fst (get_html_file_content_by_id "u1" Sample.alice
                      (InMemory.start Sample.blob_missing))) = 400.
Proof.
  rewrite (get_html_file_content_by_id_resolved "u1" Sample.alice
             (InMemory.start Sample.blob_missing) Sample.passwd_record
             Sample.blob_missing "uploads/u1_passwd" Sample.blob_missing);
    [reflexivity | vm_compute; reflexivity | by left | vm_compute; reflexivity].
Defined.

(** X14, witness: a text-only record, and one whose filename latin-1
    cannot encode. *)
Lemma inline_content_fallback_witness :
  fst (get_file_content_by_id_file_name "n1" Sample.alice
         (InMemory.start (InMemory.World [text_only_record] ∅ None None None)))
  = inr (StreamingResponse (VStr "hello") "text/plain"
           {[ "Content-Disposition" := "attachment; filename=note.txt" ]})
  ∧ http_status
      (fst (get_file_content_by_id_file_name "n2" Sample.alice
              (InMemory.start (InMemory.World [nihon_note] ∅ None None None))))
    = 500.
Proof.
  split.
  - destruct (inline_content_fallback "n1" Sample.alice
                (InMemory.start (InMemory.World [text_only_record] ∅ None None None))
                text_only_record (InMemory.World [text_only_record] ∅ None None None))
      as (Hsent & _); [vm_compute; reflexivity | by left | by left |].
    rewrite Hsent; reflexivity.
  - destruct (inline_content_fallback "n2" Sample.alice
                (InMemory.start (InMemory.World [nihon_note] ∅ None None None))
                nihon_note (InMemory.World [nihon_note] ∅ None None None))
      as (_ & Hrefused & _); [vm_compute; reflexivity | by left | by left |].
    destruct Hrefused as (_ & Hstatus); [reflexivity | exact Hstatus].
Defined.

(** X15, witness: the registry refuses the connection at the delete. *)
Lemma delete_file_by_id_registry_raises_witness :
  fst (@delete_file_by_id nat
         (Scripted.collaborators
            (Scripted.with_delete_record (inl Scripted.down)
               (Scripted.fine Sample.passwd_record)))
         InMemory.constants "u1" Sample.alice Scripted.start)
  = inl Scripted.down.
Proof.
  rewrite (@delete_file_by_id_registry_raises nat
             (Scripted.collaborators
                (Scripted.with_delete_record (inl Scripted.down)
                   (Scripted.fine Sample.passwd_record)))
             InMemory.constants "u1" Sample.alice Scripted.start
             Sample.passwd_record 1%nat Scripted.down 1%nat);
    [reflexivity | reflexivity | by left | reflexivity].
Defined.

(** X16, witness: the registry refuses the connection at the bulk delete. *)
Lemma delete_all_files_registry_raises_witness :
  fst (@delete_all_files nat
         (Scripted.collaborators
            (Scripted.with_delete_records (inl Scripted.down)
               (Scripted.fine Sample.passwd_record)))
         InMemory.constants Sample.root Scripted.start)
  = inl Scripted.down.
Proof.
  rewrite (@delete_all_files_registry_raises nat
             (Scripted.collaborators
                (Scripted.with_delete_records (inl Scripted.down)
                   (Scripted.fine Sample.passwd_record)))
             InMemory.constants Sample.root Scripted.start
             Scripted.down 0%nat);
    [reflexivity | reflexivity].
Defined.

(** ** The sanitized name and the key, once more *)

Lemma contains_app (c : ascii) (s t : string) :
  contains c (s +:+ t) = contains c s || contains c t.
Proof.
  induction s as [|a s IH]; [reflexivity|].
  rewrite app_cons. simpl. rewrite IH. by rewrite orb_assoc.
Qed.

(** With no [c] left, the scan keeps the answer it has. *)
Lemma rfind_from_clean (c : ascii) (n : string) (i last : Z) :
  contains c n = false → rfind_from c n i last = last.
Proof.
  revert i last. induction n as [|a n IH]; intros i last Hclean; [reflexivity|].
  simpl in *. apply orb_false_iff in Hclean as [Ha Hn].
  rewrite Ha. by apply IH.
Qed.

(** The last [c] of [d +:+ String c n], for [n] without [c], is the one in
    the middle. *)
Lemma rfind_from_middle (c : ascii) (d n : string) (i last : Z) :
  contains c n = false →
  rfind_from c (d +:+ String c n) i last = i + Z.of_nat (String.length d).
Proof.
  intros Hclean. revert i last. induction d as [|a d IH]; intros i last.
  - rewrite app_empty_l. simpl. rewrite Ascii.eqb_refl.
    rewrite (rfind_from_clean c n (i + 1) i Hclean). lia.
  - rewrite app_cons. simpl rfind_from. rewrite IH. simpl String.length. lia.
Qed.

Lemma slice_from_middle (a : ascii) (d n : string) :
  slice_from (S (String.length d)) (d +:+ String a n) = n.
Proof.
  induction d as [|b d IH]; [by destruct n|].
  rewrite app_cons. simpl String.length. exact IH.
Qed.

Lemma basename_clean (n : string) : contains "/" n = false → basename n = n.
Proof.
  intros Hclean. unfold basename, rfind.
  by rewrite (rfind_from_clean "/" n 0 (-1) Hclean).
Qed.

Lemma basename_after_separator (d n : string) :
  contains "/" n = false → basename (d +:+ "/" +:+ n) = n.
Proof.
  intros Hclean. unfold basename, rfind.
  change (d +:+ "/" +:+ n) with (d +:+ String "/" n).
  rewrite (rfind_from_middle "/" d n 0 (-1) Hclean).
  replace (Z.to_nat (0 + Z.of_nat (String.length d) + 1))
    with (S (String.length d)) by lia.
  apply slice_from_middle.
Qed.

(** X17: what [os.path.basename] keeps of a declared filename.  A name
    without separator is kept as it is; of [d/n] with [n] without separator,
    [n] is kept, whatever [d] holds; a filename that ends in a separator
    leaves the empty name, so that the key is the identifier and an
    underscore; and sanitizing twice is sanitizing once. *)
Theorem basename_keeps_last_component :
  (∀ n, contains "/" n = false →
        basename n = n ∧ ∀ d, basename (d +:+ "/" +:+ n) = n)
  ∧ (∀ d, basename (d +:+ "/") = "")
  ∧ (∀ p, basename (basename p) = basename p).
Proof.
  split; [|split].
  - intros n Hclean. split; [by apply basename_clean|].
    intros d. by apply basename_after_separator.
  - intros d. change (d +:+ "/") with (d +:+ "/" +:+ "").
    by apply basename_after_separator.
  - intros p. apply basename_clean. apply basename_spec.
Qed.

(** X18: when the drawn identifier holds no separator, as a UUID does, the
    key given to the storage holds none either, whatever the declared
    filename: the blob's name is a single path component. *)
Theorem upload_key_is_one_component (file : UploadFile.t) (uuid4 : string) :
  contains "/" uuid4 = false →
  contains "/" (upload_key file uuid4) = false.
Proof.
  intros Hid. unfold upload_key, storage_key.
  rewrite !contains_app, Hid.
  destruct (basename_spec (UploadFile.filename file)) as [-> _]. reflexivity.
Qed.

(** X19: identifiers of one length, as UUIDs are, give the same key only
    for the same identifier and the same sanitized name. *)
Theorem storage_key_determines_upload (id1 id2 name1 name2 : string) :
  String.length id1 = String.length id2 →
  storage_key id1 name1 = storage_key id2 name2 →
  id1 = id2 ∧ name1 = name2.
Proof.
  unfold storage_key. revert id2.
  induction id1 as [|a id1 IH]; intros [|b id2] Hlen Hkey; try discriminate Hlen.
  - cbv [String.append] in Hkey. by injection Hkey as ->.
  - rewrite !app_cons in Hkey. injection Hkey as -> Hkey.
    injection Hlen as Hlen. destruct (IH id2 Hlen Hkey) as [-> ->]. done.
Qed.

(** X18, witness: the identifier ["u1"] and the declared name
    [../../etc/passwd]. *)
Lemma upload_key_is_one_component_witness :
  contains "/" (upload_key Sample.passwd "u1") = false.
Proof.
  apply (upload_key_is_one_component Sample.passwd "u1"). reflexivity.
Defined.

(** X19, witness: two keys that are equal. *)
Lemma storage_key_determines_upload_witness :
  "u1" = "u1" ∧ "passwd" = "passwd".
Proof.
  apply (storage_key_determines_upload "u1" "u1" "passwd" "passwd");
    reflexivity.
Defined.

(** ** The extracted content *)

Section DataContent.
Context {W : Type} `{Collaborators W} `{Constants}.

(** X20: for an allowed caller, [get_file_data_content_by_id] answers 200
    with the value under ["content"] of the record's [data], and with the
    empty string when [data] has no such key; the lookup is its only call. *)
Theorem get_file_data_content_by_id_body (id : string) (user : User.t)
    (st : state W) (f : FileModel.t) (w1 : W) :
  files_get_file_by_id id (world st) = (inr (Some f), w1) →
  FileModel.user_id f = User.id user ∨ User.role user = "admin" →
  get_file_data_content_by_id id user st
  = (inr (JSON {[ "content" := default (VStr "") (FileModel.data f !! "content") ]}),
     State w1 (calls st ++ [Call_Files_get_file_by_id id]))
  ∧ (FileModel.data f !! "content" = None →
     fst (get_file_data_content_by_id id user st)
     = inr (JSON {[ "content" := VStr "" ]})).
Proof.
  intros Hget Hallowed%found_and_allowed_owner_or_admin.
  unfold get_file_data_content_by_id. unfold_monad.
  rewrite Hget, Hallowed. simpl. unfold get.
  split; [by destruct (FileModel.data f !! "content")|].
  by intros ->.
Qed.

End DataContent.

(** X20, witness: the record of [alice] has no extracted content yet. *)
Lemma get_file_data_content_by_id_body_witness :
  fst (get_file_data_content_by_id "u1" Sample.alice (InMemory.start Sample.uploaded))
  = inr (JSON {[ "content" := VStr "" ]}).
Proof.
  destruct (get_file_data_content_by_id_body "u1" Sample.alice
              (InMemory.start Sample.uploaded) Sample.passwd_record Sample.uploaded)
    as (_ & Hempty); [vm_compute; reflexivity | by left |].
  apply Hempty. vm_compute. reflexivity.
Defined.
